(** * Backend-API: the cardiovascular-risk routes

    A shallow embedding of [BACKEND/routes/prediction.js]: the prediction
    function [predictCardiovascularRisk] (remote model first, rule-based
    scoring as the fallback), the request schema of [POST /api/predict], and
    the three handlers [POST /api/predict], [GET /api/predictions] and
    [GET /api/statistics].

    JavaScript numbers are IEEE 754 binary64 values and are modelled by the
    kernel's primitive floats, which are binary64 with round-to-nearest-even.
    The members of a payload are integers that the request schema keeps
    within small ranges; they are held in [Z], and so is the rule-based
    score, a sum of ten entries of at most 25.  Where the source computes
    with integers that nothing bounds (the page of a listing, the ages added
    up for the statistics) the model computes in binary64, as the source
    does. *)

From Stdlib Require Import ZArith QArith Qabs List String Ascii Bool Lia.
From Stdlib Require Import Sorting.Sorted Sorting.Permutation.
From Stdlib Require Import Floats.PrimFloat Floats.SpecFloat Floats.FloatOps.
From Stdlib Require Import Floats.FloatAxioms.
From Stdlib Require Import Uint63 DecimalString.
Import ListNotations.

Local Open Scope string_scope.
Local Open Scope Z_scope.

(** ** JavaScript numbers *)

Module JSNumber.

(** An integer as a binary64 number: the nearest one, exact for magnitudes
    up to 2^53.  Below 2^63 the conversion is the primitive one. *)
Definition Z2F (z : Z) : float :=
  if Z.abs z <? 9223372036854775808 then
    if z <? 0 then PrimFloat.opp (PrimFloat.of_uint63 (Uint63.of_Z (- z)))
    else PrimFloat.of_uint63 (Uint63.of_Z z)
  else SF2Prim (binary_normalize prec emax z 0 false).

(** The number of binary digits of a positive integer. *)
Definition digits2 (p : positive) : Z := Z.pos (digits2_pos p).

(** The binary64 number of value [p], for [p] below 2^53: the mantissa is
    [p] shifted to 53 digits. *)
Definition canonical (s : bool) (p : positive) : spec_float :=
  S754_finite s (Z.to_pos (Z.pos p * 2 ^ (53 - digits2 p))) (digits2 p - 53).



(** [floor (k * m * 2^e + 1/2)], in integers. *)
Definition round_half_up_scaled (k m e : Z) : Z :=
  if 0 <=? e then k * m * 2 ^ e
  else (2 * k * m + 2 ^ (- e)) / 2 ^ (1 - e).

(** [Math.round]: the nearest integer, a tie going towards +infinity. *)
Definition Math_round (x : float) : float :=
  match Prim2SF x with
  | S754_finite s m e =>
      if e <? 0 then
        let n := round_half_up_scaled 1 (if s then Z.neg m else Z.pos m) e in
        if (n =? 0) && s then PrimFloat.opp PrimFloat.zero else Z2F n
      else x
  | _ => x
  end.

(** [Math.ceil] of a finite number, as an integer. *)
Definition ceil_of_float (x : float) : option Z :=
  match Prim2SF x with
  | S754_zero _ => Some 0
  | S754_finite s m e =>
      let v := if s then Z.neg m else Z.pos m in
      Some (if 0 <=? e then v * 2 ^ e else - ((- v) / 2 ^ (- e)))
  | _ => None
  end.

(** The integer a binary64 number is, if it is one. *)
Definition integer_value (x : float) : option Z :=
  match Prim2SF x with
  | S754_zero _ => Some 0
  | S754_finite s m e =>
      let v := if s then Z.neg m else Z.pos m in
      if 0 <=? e then Some (v * 2 ^ e)
      else if v mod 2 ^ (- e) =? 0 then Some (v / 2 ^ (- e)) else None
  | _ => None
  end.

Definition is_finite (x : float) : bool :=
  match Prim2SF x with
  | S754_zero _ | S754_finite _ _ _ => true
  | _ => false
  end.

(** [n <= x] and [x <= n] for a number [x] and an integer [n]: a comparison
    of binary64 numbers compares their exact values, and fails on NaN. *)
Definition int_le_float (n : Z) (x : float) : bool :=
  match Prim2SF x with
  | S754_zero _ => n <=? 0
  | S754_finite s m e =>
      let v := if s then Z.neg m else Z.pos m in
      if 0 <=? e then n <=? v * 2 ^ e else n * 2 ^ (- e) <=? v
  | S754_infinity s => negb s
  | S754_nan => false
  end.

Definition float_le_int (x : float) (n : Z) : bool :=
  match Prim2SF x with
  | S754_zero _ => 0 <=? n
  | S754_finite s m e =>
      let v := if s then Z.neg m else Z.pos m in
      if 0 <=? e then v * 2 ^ e <=? n else v <=? n * 2 ^ (- e)
  | S754_infinity s => s
  | S754_nan => false
  end.

(** Decimal digits of an integer, as [Number::toString] prints an integer
    below 10^21. *)
Definition digits (n : Z) : string := NilZero.string_of_int (Z.to_int n).

End JSNumber.
Export JSNumber.

(** ** The runtime's conversions between numbers and strings

    [Number::toString] (shortest digits that read back as the same number),
    [StringToNumber], [parseFloat] and the upper-casing of the Unicode
    tables belong to the JavaScript runtime, not to the repository.  The
    development is parametric in them.  Text is held in UTF-8. *)

Class Runtime : Type := {
  NumberToString : float -> string;
  StringToNumber : string -> float;
  parseFloat : string -> float;
  UnicodeUpperCase : string -> string
}.

(** ** JavaScript values, as [JSON.parse] builds them *)

#[local] Set Warnings "-register-all".

Inductive jsval : Type :=
| JUndefined
| JNull
| JBool (b : bool)
| JNum (x : float)
| JStr (s : string)
| JArr (elems : list jsval)
| JObj (props : list (string * jsval)).

Module JS.

(** An object's own properties are held one entry per key. *)
Fixpoint lookup (k : string) (props : list (string * jsval)) : option jsval :=
  match props with
  | [] => None
  | (k', v) :: rest => if String.eqb k k' then Some v else lookup k rest
  end.

Definition has_key (k : string) (props : list (string * jsval)) : bool :=
  match lookup k props with Some _ => true | None => false end.

(** [v.k] for a receiver that is neither [null] nor [undefined], and for one
    of the member names the routes read ([success], [prediction], [data],
    [confidence], ...): none of them is inherited from a prototype, so only an
    object's own member answers. *)
Definition get (v : jsval) (k : string) : jsval :=
  match v with
  | JObj props => match lookup k props with Some x => x | None => JUndefined end
  | _ => JUndefined
  end.

(** [v?.k]. *)
Definition get_opt (v : jsval) (k : string) : jsval :=
  match v with
  | JUndefined | JNull => JUndefined
  | _ => get v k
  end.

(** ToBoolean. *)
Definition truthy (v : jsval) : bool :=
  match v with
  | JUndefined | JNull => false
  | JBool b => b
  | JNum x => PrimFloat.eqb x x && negb (PrimFloat.eqb x 0)
  | JStr s => negb (String.eqb s "")
  | JArr _ | JObj _ => true
  end.

(** [a || b]. *)
Definition or (a b : jsval) : jsval := if truthy a then a else b.

(** [v !== undefined]. *)
Definition is_defined (v : jsval) : bool :=
  match v with JUndefined => false | _ => true end.

(** [v === n] for a number literal [n]. *)
Definition strict_eq_num (v : jsval) (n : float) : bool :=
  match v with JNum x => PrimFloat.eqb x n | _ => false end.

Definition upper_ascii (c : ascii) : ascii :=
  let n := nat_of_ascii c in
  if (97 <=? n)%nat && (n <=? 122)%nat then ascii_of_nat (n - 32) else c.

Fixpoint upper_ascii_text (s : string) : string :=
  match s with
  | EmptyString => EmptyString
  | String c rest => String (upper_ascii c) (upper_ascii_text rest)
  end.

Fixpoint all_ascii (s : string) : bool :=
  match s with
  | EmptyString => true
  | String c rest => (nat_of_ascii c <? 128)%nat && all_ascii rest
  end.

Section WithRuntime.
Context {rt : Runtime}.

(** [String.prototype.toUpperCase].  On ASCII text the Unicode mapping turns
    the letters a-z into A-Z and keeps every other character; text with
    other characters goes through the runtime's tables (which, for one, map
    the dotless i U+0131 to I). *)
Definition toUpperCase (s : string) : string :=
  if all_ascii s then upper_ascii_text s else UnicodeUpperCase s.

(** [Number.prototype.toFixed(1)]: [n / 10] closest to the magnitude, the
    larger [n] on a tie; magnitudes from 10^21 on print as [ToString] does. *)
Definition toFixed1 (x : float) : string :=
  match Prim2SF x with
  | S754_nan => "NaN"
  | S754_infinity false => "Infinity"
  | S754_infinity true => "-Infinity"
  | S754_zero _ => "0.0"
  | S754_finite s m e =>
      if PrimFloat.leb 1e21 (PrimFloat.abs x) then NumberToString x
      else
        let n := round_half_up_scaled 10 (Z.pos m) e in
        (if s then "-" else "") ++ digits (n / 10) ++ "." ++ digits (n mod 10)
  end.

(** ToString; [None] is a thrown TypeError.  A parsed object has no callable
    member, so an own [toString] member hides [Object.prototype.toString] and
    the conversion throws; an array joins its elements with commas, [null]
    printing as nothing. *)
Fixpoint ToString (v : jsval) : option string :=
  match v with
  | JUndefined => Some "undefined"
  | JNull => Some "null"
  | JBool true => Some "true"
  | JBool false => Some "false"
  | JNum x => Some (NumberToString x)
  | JStr s => Some s
  | JArr elems =>
      let elem (e : jsval) : option string :=
        match e with
        | JUndefined | JNull => Some ""
        | _ => ToString e
        end in
      (fix join (l : list jsval) : option string :=
         match l with
         | [] => Some ""
         | [e] => elem e
         | e :: rest =>
             match elem e, join rest with
             | Some a, Some b => Some (a ++ "," ++ b)
             | _, _ => None
             end
         end) elems
  | JObj props => if has_key "toString" props then None else Some "[object Object]"
  end.

(** ToNumber; [None] is a thrown TypeError. *)
Definition ToNumber (v : jsval) : option float :=
  match v with
  | JUndefined => Some PrimFloat.nan
  | JNull => Some PrimFloat.zero
  | JBool b => Some (if b then PrimFloat.one else PrimFloat.zero)
  | JNum x => Some x
  | JStr s => Some (StringToNumber s)
  | JArr _ | JObj _ => option_map StringToNumber (ToString v)
  end.

(** [v.toUpperCase()]: only a string has the method. *)
Definition call_toUpperCase (v : jsval) : option string :=
  match v with
  | JStr s => Some (toUpperCase s)
  | _ => None
  end.

End WithRuntime.

End JS.

(** ** The prediction function *)

(** The payload of [POST /api/predict] once the route's schema has accepted
    it: eleven integers.  The body sent to the remote model has the same
    members. *)
Record formData : Type := {
  age : Z;
  gender : Z;
  height : Z;
  weight : Z;
  ap_hi : Z;
  ap_lo : Z;
  cholesterol : Z;
  gluc : Z;
  smoke : Z;
  alco : Z;
  active : Z
}.

(** [ml_details] of a model-backed result. *)
Record MlDetails : Type := {
  model_confidence : jsval;
  bmi_category : jsval;
  interpretation : jsval;
  recommendation : jsval
}.

(** What [predictCardiovascularRisk] returns.  [risk] and [probability] are
    whatever the remote body held on the model-backed path; [ml_details] is
    absent on the rule-based path. *)
Record PredictionResult : Type := {
  risk : jsval;
  confidence : float;
  probability : jsval;
  risk_label : string;
  bmi : string;
  source : string;
  ml_details : option MlDetails
}.

(** How [axios.post] settles: rejected (timeout after 15000 ms, no
    connection, a status outside 2xx) with its error, or resolved with the
    body in [data] (parsed JSON, or the raw text when it does not parse). *)
Inductive axios_reply : Type :=
| Rejected (error : jsval)
| Resolved (data : jsval).

(** How the [try] block ends. *)
Inductive completion (A : Type) : Type :=
| Returned (a : A)
| Thrown
| FellThrough.
Arguments Returned {A} a.
Arguments Thrown {A}.
Arguments FellThrough {A}.

Module Prediction.
Import JS.

(** Lines 18-30: the body sent to [ML_SERVICE_URL/api/predict]. *)
Definition mlRequestBody (fd : formData) : formData :=
  {| age := age fd;
     gender := if gender fd =? 1 then 0 else 1;
     height := height fd;
     weight := weight fd;
     ap_hi := ap_hi fd;
     ap_lo := ap_lo fd;
     cholesterol := cholesterol fd;
     gluc := gluc fd;
     smoke := smoke fd;
     alco := alco fd;
     active := active fd |}.

(** [formData.weight / (heightInM * heightInM)] with
    [heightInM = formData.height / 100], in binary64 (lines 51-52, 81-82). *)
Definition heightInM (fd : formData) : float :=
  PrimFloat.div (Z2F (height fd)) 100.

Definition calculatedBMI (fd : formData) : float :=
  PrimFloat.div (Z2F (weight fd)) (PrimFloat.mul (heightInM fd) (heightInM fd)).

(** Lines 84-95.  [bmi > 30] compares binary64 numbers. *)
Definition riskFactors (fd : formData) : list Z :=
  let bmi := calculatedBMI fd in
  [ if 55 <? age fd then 25 else if 45 <? age fd then 15 else 5;
    if gender fd =? 2 then 10 else 5;
    if PrimFloat.ltb 30 bmi then 20 else if PrimFloat.ltb 25 bmi then 10 else 0;
    if 140 <? ap_hi fd then 25 else if 120 <? ap_hi fd then 15 else 5;
    if 90 <? ap_lo fd then 20 else if 80 <? ap_lo fd then 10 else 5;
    if cholesterol fd =? 3 then 25 else if cholesterol fd =? 2 then 15 else 0;
    if gluc fd =? 3 then 20 else if gluc fd =? 2 then 10 else 0;
    if smoke fd =? 1 then 15 else 0;
    if alco fd =? 1 then 5 else 0;
    if active fd =? 0 then 10 else 0 ].

(** Lines 97-100. *)
Definition totalRisk (fd : formData) : Z :=
  fold_left (fun sum risk => sum + risk) (riskFactors fd) 0.

Definition ruleConfidence (fd : formData) : Z :=
  Z.min (Z.max (totalRisk fd) 10) 95.

Definition ruleRisk (fd : formData) : Z :=
  if 65 <=? ruleConfidence fd then 1 else 0.

Definition ruleProbability (fd : formData) : float :=
  PrimFloat.div (Z2F (ruleConfidence fd)) 100.

Section WithRuntime.
Context {rt : Runtime}.

(** Lines 80-109: the rule-based prediction the function ends with. *)
Definition ruleBasedPrediction (fd : formData) : PredictionResult :=
  {| risk := JNum (Z2F (ruleRisk fd));
     confidence := Z2F (ruleConfidence fd);
     probability := JNum (ruleProbability fd);
     risk_label := if ruleRisk fd =? 1 then "High Risk" else "Low Risk";
     bmi := toFixed1 (calculatedBMI fd);
     source := "rule_based";
     ml_details := None |}.

(** [bmi.toString()] on a truthy value. *)
Definition call_toString (v : jsval) : option string :=
  match v with
  | JUndefined | JNull => None
  | _ => ToString v
  end.

(** Lines 42-68: the result built from a body that passed the test of line
    41; [None] when building it throws. *)
Definition normalizeMlResponse (data : jsval) (fd : formData)
  : option PredictionResult :=
  let responseData := or (get data "data") data in
  let prediction :=
    if is_defined (get responseData "prediction")
    then get responseData "prediction" else get data "prediction" in
  let confidence :=
    or (or (get responseData "confidence") (get data "confidence")) (JNum 0.5) in
  let probability :=
    or (or (get responseData "probability") (get data "probability")) confidence in
  let riskLevel :=
    or (or (get responseData "risk_level") (get data "risk_level"))
       (JStr (if strict_eq_num prediction 1 then "HIGH" else "LOW")) in
  let bmi :=
    or (or (get_opt (get responseData "patient_data") "bmi") (get responseData "bmi"))
       (JStr (toFixed1 (calculatedBMI fd))) in
  match ToNumber confidence, call_toUpperCase riskLevel, call_toString bmi with
  | Some c, Some level, Some bmi_text =>
      Some {| risk := prediction;
              confidence := Math_round (PrimFloat.mul c 100);
              probability := probability;
              risk_label := if String.eqb level "HIGH" then "High Risk" else "Low Risk";
              bmi := bmi_text;
              source := "ml_model";
              ml_details := Some
                {| model_confidence := confidence;
                   bmi_category :=
                     or (or (get_opt (get responseData "patient_data") "bmi_category")
                            (get responseData "bmi_category")) (JStr "Unknown");
                   interpretation :=
                     or (or (get responseData "interpretation") (get data "interpretation"))
                        (JStr "ML prediction completed");
                   recommendation :=
                     or (or (or (get responseData "result_message")
                                (get data "result_message"))
                            (get responseData "recommendation"))
                        (JStr "Follow medical advice") |} |}
  | _, _, _ => None
  end.

(** Line 41: [mlResponse.data && (mlResponse.data.success ||
    mlResponse.data.prediction !== undefined)]. *)
Definition hasSuccessIndicator (data : jsval) : bool :=
  truthy data && (truthy (get data "success") || is_defined (get data "prediction")).

(** Lines 16-78: the [try] block, given how the remote call settles. *)
Definition tryMlService (post : formData -> axios_reply) (fd : formData)
  : completion PredictionResult :=
  match post (mlRequestBody fd) with
  | Rejected _ => Thrown
  | Resolved data =>
      if hasSuccessIndicator data then
        match normalizeMlResponse data fd with
        | Some r => Returned r
        | None => Thrown
        end
      else FellThrough
  end.

(** Lines 15-110.  A throw inside [try] is caught and logged; the function
    then goes on to the rule-based prediction, as it does when the [if] of
    line 41 is not taken. *)
Definition predictCardiovascularRisk (post : formData -> axios_reply)
  (fd : formData) : PredictionResult :=
  match tryMlService post fd with
  | Returned r => r
  | Thrown | FellThrough => ruleBasedPrediction fd
  end.

End WithRuntime.
End Prediction.

(** ** The request schema of [POST /api/predict]

    The schema (lines 168-180) is the repository's; the engine that runs it
    is the Joi library, which hapi calls before the handler.  The engine is
    modelled from Joi's documented behaviour at the grain of one verdict per
    member: a member is checked by its rules in the order they were chained,
    the members are checked in the order of the schema, and the preference
    [abortEarly] (true unless the route sets it) stops at the first error. *)

Module Joi.
Import JS.

(** The links of a [Joi.number()] chain. *)
Inductive rule : Type :=
| integer
| min (n : Z)
| max (n : Z)
| valid (allowed : list Z)
| required.

Record preferences : Type := {
  abortEarly : bool;
  convert : bool;
  allowUnknown : bool
}.

(** Joi's defaults.  The route passes [validate.payload] only: no
    [validate.options], no [failAction]. *)
Definition defaults : preferences :=
  {| abortEarly := true; convert := true; allowUnknown := false |}.

(** [x === n] for an integer [n]. *)
Definition is_integer (x : float) (n : Z) : bool :=
  match integer_value x with Some z => z =? n | None => false end.

Definition has_required (rules : list rule) : bool :=
  existsb (fun r => match r with required => true | _ => false end) rules.

Definition allowed_values (rules : list rule) : option (list Z) :=
  fold_right (fun r acc => match r with valid vs => Some vs | _ => acc end) None rules.

(** The first rule a number breaks, by the rule's error code. *)
Fixpoint broken_rule (rules : list rule) (x : float) : option string :=
  match rules with
  | [] => None
  | r :: rest =>
      let here :=
        match r with
        | integer =>
            match integer_value x with Some _ => None | None => Some "number.integer" end
        | min n => if int_le_float n x then None else Some "number.min"
        | max n => if float_le_int x n then None else Some "number.max"
        | valid _ | required => None
        end in
      match here with Some code => Some code | None => broken_rule rest x end
  end.

Section Engine.
(** Joi's reading of a numeric string, used when [convert] is on. *)
Variable number_of_string : string -> option float.
Variable prefs : preferences.

Definition coerce (v : jsval) : jsval :=
  match v with
  | JStr s =>
      if convert prefs then
        match number_of_string s with Some x => JNum x | None => v end
      else v
  | _ => v
  end.

(** One member against its chain: the accepted value, or the code of the
    first error.  An allowed value is accepted without going through the
    rules; with allowed values given, any other value is refused. *)
Definition check_number (rules : list rule) (v : jsval) : jsval + string :=
  match coerce v with
  | JUndefined => if has_required rules then inr "any.required" else inl JUndefined
  | JNum x =>
      match allowed_values rules with
      | Some vs =>
          if existsb (fun n => is_integer x n) vs then inl (JNum x)
          else inr "any.only"
      | None =>
          if is_finite x then
            match broken_rule rules x with
            | Some code => inr code
            | None => inl (JNum x)
            end
          else inr "number.base"
      end
  | _ =>
      match allowed_values rules with
      | Some _ => inr "any.only"
      | None => inr "number.base"
      end
  end.

(** The errors of the members, in schema order, each with its key. *)
Fixpoint member_errors (schema : list (string * list rule)) (o : jsval)
  : list (string * string) :=
  match schema with
  | [] => []
  | (k, rules) :: rest =>
      match check_number rules (get o k) with
      | inr code =>
          (k, code) :: (if abortEarly prefs then [] else member_errors rest o)
      | inl _ => member_errors rest o
      end
  end.

Definition unknown_errors (schema : list (string * list rule))
  (props : list (string * jsval)) : list (string * string) :=
  if allowUnknown prefs then []
  else
    map (fun kv => (fst kv, "object.unknown"))
      (filter (fun kv => negb (existsb (fun e => String.eqb (fst e) (fst kv)) schema))
         props).

(** [Joi.object(schema)] against a parsed body. *)
Definition object_errors (schema : list (string * list rule)) (v : jsval)
  : list (string * string) :=
  match v with
  | JObj props =>
      let es := member_errors schema v in
      if abortEarly prefs then
        match es with
        | [] => firstn 1 (unknown_errors schema props)
        | _ => es
        end
      else (es ++ unknown_errors schema props)%list
  | _ => [("", "object.base")]
  end.

Definition rules_of (schema : list (string * list rule)) (k : string)
  : list rule :=
  match find (fun e => String.eqb (fst e) k) schema with
  | Some e => snd e
  | None => []
  end.

(** The value of an accepted member; the members of the route's schema are
    all integers. *)
Definition member (schema : list (string * list rule)) (o : jsval) (k : string) : Z :=
  match check_number (rules_of schema k) (get o k) with
  | inl (JNum x) => match integer_value x with Some z => z | None => 0 end
  | _ => 0
  end.

End Engine.
End Joi.

(** ** The routes *)

(** A handler's answer: a status code with the body of a success, or with the
    [error] text of a failure body ([success: false]). *)
Inductive reply (A : Type) : Type :=
| Reply (code : Z) (body : A)
| Fault (code : Z) (error : string).
Arguments Reply {A} code body.
Arguments Fault {A} code error.

Definition status {A : Type} (r : reply A) : Z :=
  match r with Reply c _ => c | Fault c _ => c end.

(** *** [POST /api/predict] *)

(** The row handed to the record store (lines 192-202). *)
Record PredictionData : Type := {
  inputData : formData;
  risk_prediction : jsval;
  confidence_score : float;
  stored_probability : jsval;
  stored_bmi : float;
  prediction_source : string;
  user_agent : jsval;
  session_id : string;
  stored_ml_details : option MlDetails
}.

(** What [await supabase.from(..).insert(..).select()] resolves to: the
    client reports a failed write in [error] and does not reject. *)
Record InsertReply : Type := {
  inserted : jsval;
  insert_error : jsval
}.

(** What a request meets outside the handler: the remote model, the
    [user-agent] header, the clock and the random source behind the session
    token, and the record store. *)
Record PredictEnv : Type := {
  ml_post : formData -> axios_reply;
  user_agent_header : jsval;
  now : Z;
  random36 : string;
  db_insert : PredictionData -> InsertReply
}.

Record PredictionView : Type := {
  view_risk : jsval;
  view_confidence : float;
  view_probability : jsval;
  view_risk_label : string;
  view_bmi : string;
  view_source : string
}.

Record Lifestyle : Type := {
  smoking : string;
  alcohol : string;
  physical_activity : string
}.

Record PatientData : Type := {
  patient_age : Z;
  patient_gender : string;
  patient_height : Z;
  patient_weight : Z;
  patient_bmi : string;
  blood_pressure : string;
  patient_cholesterol : string;
  glucose : string;
  lifestyle : Lifestyle
}.

Record PredictBody : Type := {
  success : bool;
  prediction : PredictionView;
  patient_data : PatientData;
  ml_insights : option MlDetails;
  saved : bool;
  message : string
}.

(** *** [GET /api/predictions] *)

(** The query string once its schema has accepted it and filled the defaults
    ([page] 1, [limit] 10). *)
Record ListQuery : Type := {
  page : Z;
  limit : Z;
  riskLevel : option Z;
  gender_filter : option Z
}.

(** What the handler asks of the record store (lines 280-291). *)
Record SelectQuery : Type := {
  table : string;
  order_column : string;
  ascending : bool;
  range_from : float;
  range_to : float;
  eq_filters : list (string * Z)
}.

(** A stored record, as far as the listing looks at it. *)
Record StoredRecord : Type := {
  record_id : Z;
  created_at : Z;
  record_risk : Z;
  record_gender : Z
}.

Record SelectReply : Type := {
  selected : list StoredRecord;
  select_error : jsval;
  count : Z
}.

Record Pagination : Type := {
  pagination_page : Z;
  pagination_limit : Z;
  total : Z;
  totalPages : Z
}.

Record ListBody : Type := {
  data : list StoredRecord;
  pagination : Pagination
}.

(** *** [GET /api/statistics] *)

(** A row of [select('risk_prediction, gender, age, bmi, prediction_source')].
    The table's schema is not in the repository: the integer columns are
    taken as integers, and [bmi] as a number or NULL. *)
Record SummaryRow : Type := {
  row_risk_prediction : Z;
  row_gender : Z;
  row_age : Z;
  row_bmi : option float
}.

Record Statistics : Type := {
  stat_total : Z;
  highRisk : Z;
  lowRisk : Z;
  male : Z;
  female : Z;
  averageAge : float;
  averageBMI : float
}.

Module Routes.
Import JS Prediction.

(** Lines 168-180. *)
Definition payloadSchema : list (string * list Joi.rule) :=
  [ ("age", [Joi.integer; Joi.min 1; Joi.max 120; Joi.required]);
    ("gender", [Joi.integer; Joi.valid [1; 2]; Joi.required]);
    ("height", [Joi.integer; Joi.min 100; Joi.max 250; Joi.required]);
    ("weight", [Joi.integer; Joi.min 30; Joi.max 200; Joi.required]);
    ("ap_hi", [Joi.integer; Joi.min 80; Joi.max 250; Joi.required]);
    ("ap_lo", [Joi.integer; Joi.min 40; Joi.max 150; Joi.required]);
    ("cholesterol", [Joi.integer; Joi.valid [1; 2; 3]; Joi.required]);
    ("gluc", [Joi.integer; Joi.valid [1; 2; 3]; Joi.required]);
    ("smoke", [Joi.integer; Joi.valid [0; 1]; Joi.required]);
    ("alco", [Joi.integer; Joi.valid [0; 1]; Joi.required]);
    ("active", [Joi.integer; Joi.valid [0; 1]; Joi.required]) ].

Section Validation.
Variable number_of_string : string -> option float.
Variable prefs : Joi.preferences.

(** The payload validation hapi runs before the handler: the typed payload,
    or the errors (answered with status 400). *)
Definition validatePayloadWith (payload : jsval)
  : formData + list (string * string) :=
  match Joi.object_errors number_of_string prefs payloadSchema payload with
  | [] =>
      let m := Joi.member number_of_string prefs payloadSchema payload in
      inl {| age := m "age"; gender := m "gender"; height := m "height";
             weight := m "weight"; ap_hi := m "ap_hi"; ap_lo := m "ap_lo";
             cholesterol := m "cholesterol"; gluc := m "gluc";
             smoke := m "smoke"; alco := m "alco"; active := m "active" |}
  | es => inr es
  end.

End Validation.

(** The route as written: Joi's defaults. *)
Definition validatePayload (number_of_string : string -> option float)
  (payload : jsval) : formData + list (string * string) :=
  validatePayloadWith number_of_string Joi.defaults payload.

Section WithRuntime.
Context {rt : Runtime}.

(** Lines 226-240. *)
Definition patientData (inputData : formData) (prediction : PredictionResult)
  : PatientData :=
  let level (c : Z) :=
    if c =? 1 then "Normal" else if c =? 2 then "Above Normal"
    else "Well Above Normal" in
  let yes_no (b : bool) := if b then "Yes" else "No" in
  {| patient_age := age inputData;
     patient_gender := if gender inputData =? 2 then "Female" else "Male";
     patient_height := height inputData;
     patient_weight := weight inputData;
     patient_bmi := bmi prediction;
     blood_pressure := digits (ap_hi inputData) ++ "/" ++ digits (ap_lo inputData);
     patient_cholesterol := level (cholesterol inputData);
     glucose := level (gluc inputData);
     lifestyle :=
       {| smoking := yes_no (smoke inputData =? 1);
          alcohol := yes_no (alco inputData =? 1);
          physical_activity := yes_no (active inputData =? 1) |} |}.

(** Lines 192-202. *)
Definition predictionData (env : PredictEnv) (inputData : formData)
  (prediction : PredictionResult) : PredictionData :=
  {| inputData := inputData;
     risk_prediction := risk prediction;
     confidence_score := confidence prediction;
     stored_probability := probability prediction;
     stored_bmi := parseFloat (bmi prediction);
     prediction_source := source prediction;
     user_agent := or (user_agent_header env) JNull;
     session_id :=
       "session_" ++ digits (now env) ++ "_" ++ substring 2 13 (random36 env);
     stored_ml_details := ml_details prediction |}.

(** Lines 183-258.  The only statement of the [try] block that can throw is
    the log of [data[0]] after a write without error, when [data] is [null]
    or [undefined]; the [catch] answers 500. *)
Definition predictHandler (env : PredictEnv) (inputData : formData)
  : reply PredictBody :=
  let prediction := predictCardiovascularRisk (ml_post env) inputData in
  let written := db_insert env (predictionData env inputData prediction) in
  let error := insert_error written in
  if negb (truthy error)
     && match inserted written with JUndefined | JNull => true | _ => false end
  then Fault 500 "Internal server error"
  else
    Reply 200
      {| success := true;
         prediction :=
           {| view_risk := risk prediction;
              view_confidence := confidence prediction;
              view_probability := probability prediction;
              view_risk_label := risk_label prediction;
              view_bmi := bmi prediction;
              view_source := source prediction |};
         patient_data := patientData inputData prediction;
         ml_insights := ml_details prediction;
         saved := negb (truthy error);
         message := "Prediction completed successfully" |}.

End WithRuntime.

(** Lines 277-291.  [(page - 1) * limit] and [offset + limit - 1] are
    computed in binary64; the schema of the query puts no upper bound on
    [page]. *)
Definition listQuery (q : ListQuery) : SelectQuery :=
  let offset := PrimFloat.mul (PrimFloat.sub (Z2F (page q)) 1) (Z2F (limit q)) in
  {| table := "cardiovascular_predictions";
     order_column := "created_at";
     ascending := false;
     range_from := offset;
     range_to := PrimFloat.sub (PrimFloat.add offset (Z2F (limit q))) 1;
     eq_filters :=
       (match riskLevel q with Some r => [("risk_prediction", r)] | None => [] end
        ++ match gender_filter q with Some g => [("gender", g)] | None => [] end)%list |}.

(** [Math.ceil(count / limit)] for integers [count >= 0] and [limit > 0].
    The source divides in binary64 and rounds up.  For a limit up to 100 and
    a count below 2^46 the quotient is either an integer, and then exact, or
    at least 1/100 away from one, which is more than the rounding error
    2^(-7): the result is the integer ceiling. *)
Definition Math_ceil_div (count limit : Z) : Z := - ((- count) / limit).

(** Lines 275-318. *)
Definition listHandler (db : SelectQuery -> SelectReply) (q : ListQuery)
  : reply ListBody :=
  let r := db (listQuery q) in
  if truthy (select_error r) then Fault 500 "Failed to fetch predictions"
  else
    Reply 200
      {| data := selected r;
         pagination :=
           {| pagination_page := page q;
              pagination_limit := limit q;
              total := count r;
              totalPages := Math_ceil_div (count r) (limit q) |} |}.

(** [data.filter(p).length]. *)
Definition count_if {A : Type} (p : A -> bool) (l : list A) : Z :=
  Z.of_nat (List.length (filter p l)).

(** [item => item.bmi]: a number is truthy unless it is 0 or NaN. *)
Definition bmi_truthy (item : SummaryRow) : bool :=
  match row_bmi item with
  | Some x => truthy (JNum x)
  | None => false
  end.

(** [parseFloat(item.bmi)]: a truthy number is printed and read back, which
    gives the number again. *)
Definition bmi_number (item : SummaryRow) : float :=
  match row_bmi item with
  | Some x => x
  | None => PrimFloat.nan
  end.

(** Lines 335-348.  The ages are added up in binary64, in the order of the
    rows. *)
Definition statistics (data : list SummaryRow) : Statistics :=
  {| stat_total := Z.of_nat (List.length data);
     highRisk := count_if (fun item => row_risk_prediction item =? 1) data;
     lowRisk := count_if (fun item => row_risk_prediction item =? 0) data;
     male := count_if (fun item => row_gender item =? 2) data;
     female := count_if (fun item => row_gender item =? 1) data;
     averageAge :=
       if 0 <? Z.of_nat (List.length data) then
         PrimFloat.div
           (fold_left (fun sum item => PrimFloat.add sum (Z2F (row_age item)))
              data 0%float)
           (Z2F (Z.of_nat (List.length data)))
       else 0%float;
     averageBMI :=
       if 0 <? count_if bmi_truthy data then
         PrimFloat.div
           (fold_left (fun sum item => PrimFloat.add sum (bmi_number item))
              (filter bmi_truthy data) 0%float)
           (Z2F (count_if bmi_truthy data))
       else 0%float |}.

(** Lines 325-363. *)
Definition statisticsHandler (rows : list SummaryRow) (error : jsval)
  : reply Statistics :=
  if truthy error then Fault 500 "Failed to get statistics"
  else Reply 200 (statistics rows).

End Routes.

(** ** The record store behind [GET /api/predictions] *)

Module Store.

(** Modelled from the spec: the record store is an external collaborator
    (section 4.5: [list(filter, page, limit)] gives the items and the total
    count, or a PersistError; filtering by risk level and gender, a slice of
    the records ordered by creation time).  A range names its first and last
    positions, both included, as the client's [range(from, to)] does.  The
    store either serves or reports its failure.  Section 4.5 does not say
    what a store answers to a range that names no positions or starts past
    the last matching record: that answer is a parameter of the store. *)
Record t : Type := {
  records : list StoredRecord;
  failure : jsval;
  past_the_end : SelectReply
}.

Definition matches (filters : list (string * Z)) (r : StoredRecord) : bool :=
  forallb
    (fun f =>
       if String.eqb (fst f) "risk_prediction" then record_risk r =? snd f
       else if String.eqb (fst f) "gender" then record_gender r =? snd f
       else true)
    filters.

Fixpoint insert_newer (r : StoredRecord) (l : list StoredRecord)
  : list StoredRecord :=
  match l with
  | [] => [r]
  | x :: rest =>
      if created_at x <=? created_at r then r :: l
      else x :: insert_newer r rest
  end.

Definition newest_first (l : list StoredRecord) : list StoredRecord :=
  fold_right insert_newer [] l.

Definition slice {A : Type} (from to : Z) (l : list A) : list A :=
  firstn (Z.to_nat (to - from + 1)) (skipn (Z.to_nat from) l).

(** The range starts at the first position, or at one that holds a
    record. *)
Definition within (from to size : Z) : bool :=
  (0 <=? from) && (from <=? to) && ((from =? 0) || (from <? size)).

Definition select (store : t) (q : SelectQuery) : SelectReply :=
  if JS.truthy (failure store) then
    {| selected := []; select_error := failure store; count := 0 |}
  else
    let found := filter (matches (eq_filters q)) (records store) in
    let ordered :=
      if String.eqb (order_column q) "created_at" then
        if ascending q then rev (newest_first found) else newest_first found
      else found in
    match integer_value (range_from q), integer_value (range_to q) with
    | Some from, Some to =>
        if within from to (Z.of_nat (List.length found)) then
          {| selected := slice from to ordered;
             select_error := JNull;
             count := Z.of_nat (List.length found) |}
        else past_the_end store
    | _, _ => past_the_end store
    end.

End Store.

(** ** The specification's words *)

Module Spec.

(** Section 3: the domains of PatientMetrics. *)
Definition valid (m : formData) : Prop :=
  1 <= age m <= 120 /\ (gender m = 1 \/ gender m = 2) /\
  100 <= height m <= 250 /\ 30 <= weight m <= 200 /\
  80 <= ap_hi m <= 250 /\ 40 <= ap_lo m <= 150 /\
  1 <= cholesterol m <= 3 /\ 1 <= gluc m <= 3 /\
  0 <= smoke m <= 1 /\ 0 <= alco m <= 1 /\ 0 <= active m <= 1.

(** Section 4.3: BMI = weight_kg / (height_cm / 100)^2, as a rational. *)
Definition BMI (m : formData) : Q :=
  (inject_Z (weight m) / ((inject_Z (height m) / 100) * (inject_Z (height m) / 100)))%Q.

Definition above (q : Q) (bound : Q) : bool := negb (Qle_bool q bound).

(** Section 4.3: the ten contributions, in the order of the list. *)
Definition age_points (m : formData) : Z :=
  if 55 <? age m then 25 else if 45 <? age m then 15 else 5.
Definition gender_points (m : formData) : Z :=
  if gender m =? 2 then 10 else 5.
Definition bmi_points (m : formData) : Z :=
  if above (BMI m) 30 then 20 else if above (BMI m) 25 then 10 else 0.
Definition systolic_points (m : formData) : Z :=
  if 140 <? ap_hi m then 25 else if 120 <? ap_hi m then 15 else 5.
Definition diastolic_points (m : formData) : Z :=
  if 90 <? ap_lo m then 20 else if 80 <? ap_lo m then 10 else 5.
Definition cholesterol_points (m : formData) : Z :=
  if cholesterol m =? 3 then 25 else if cholesterol m =? 2 then 15 else 0.
Definition glucose_points (m : formData) : Z :=
  if gluc m =? 3 then 20 else if gluc m =? 2 then 10 else 0.
Definition smoker_points (m : formData) : Z :=
  if smoke m =? 1 then 15 else 0.
Definition alcohol_points (m : formData) : Z :=
  if alco m =? 1 then 5 else 0.
Definition inactive_points (m : formData) : Z :=
  if active m =? 1 then 0 else 10.

Definition score (m : formData) : Z :=
  age_points m + gender_points m + bmi_points m + systolic_points m
  + diastolic_points m + cholesterol_points m + glucose_points m
  + smoker_points m + alcohol_points m + inactive_points m.

(** "Total is clamped to [10, 95]: this is confidence.  risk = 1 iff
    confidence >= 65, else 0.  probability = confidence / 100." *)
Definition clamp (lo hi x : Z) : Z :=
  if x <? lo then lo else if hi <? x then hi else x.

Definition confidence_of (total : Z) : Z := clamp 10 95 total.

Definition risk_of (confidence : Z) : Z := if 65 <=? confidence then 1 else 0.

Definition probability_of (confidence : Z) : Q := (inject_Z confidence / 100)%Q.

Definition confidence (m : formData) : Z := confidence_of (score m).

Definition risk (m : formData) : Z := risk_of (confidence m).

Definition probability (m : formData) : Q := probability_of (confidence m).



(** Section 4.2: "extract [prediction] (0/1)". *)
Definition parseable_prediction (v : jsval) : bool :=
  JS.strict_eq_num v 0 || JS.strict_eq_num v 1.

(** Section 4.2: "Any failure (timeout, connection error,
    unparseable/failure response) yields RemoteError", and "a response
    lacking any recognizable success indicator ([success] flag false and no
    parseable [prediction]) is treated as a failure".  A body that did not
    parse reaches the caller as text. *)
Inductive RemoteError : axios_reply -> Prop :=
| TransportError (error : jsval) : RemoteError (Rejected error)
| Unparseable (text : string) : RemoteError (Resolved (JStr text))
| FailureResponse (data : jsval) :
    JS.truthy (JS.get data "success") = false ->
    parseable_prediction (JS.get data "prediction") = false ->
    RemoteError (Resolved data).

(** Section 3: "risk_label (human string derived deterministically from
    risk)". *)
Definition label_of_risk (risk : jsval) : string :=
  if JS.strict_eq_num risk 1 then "High Risk" else "Low Risk".

(** Section 4.6: the mean of a list of numbers, 0 for the empty list. *)
Definition mean (xs : list float) : float :=
  match xs with
  | [] => 0%float
  | _ => PrimFloat.div (fold_left PrimFloat.add xs 0%float)
           (Z2F (Z.of_nat (List.length xs)))
  end.

(** The BMI values of the records that have one. *)
Definition bmi_values (rows : list SummaryRow) : list float :=
  flat_map (fun r => match row_bmi r with Some x => [x] | None => [] end) rows.

(** The least number of pages of [limit] records that hold [total]. *)
Definition is_ceiling (total limit pages : Z) : Prop :=
  total <= pages * limit /\ (pages - 1) * limit < total.

End Spec.

(** ** The health route and the start-up probe *)

(** What [GET /api/ml-health] reports about the remote model
    ([ml_service] in the body). *)
Inductive MlServiceReport : Type :=
| Connected (url : string) (health : jsval) (endpoint_used : string)
    (timestamp : string)
| Disconnected (url : string) (error : jsval) (status_code : jsval)
    (response_data : jsval) (timestamp : string).

Record MlHealthBody : Type := {
  health_success : bool;
  ml_service : MlServiceReport
}.

(** What the health route meets: the answers of the remote host to a GET on
    a URL (with a timeout of 10000 ms), and the clock. *)
Record MlHealthEnv : Type := {
  ml_get : string -> axios_reply;
  clock_iso : string
}.

(** What the start-up probe does, in order. *)
Inductive probe_event : Type :=
| HealthRequest (attempt : nat)
| Delay (ms : Z).

Record ProbeResult : Type := {
  mlConnected : bool;
  events : list probe_event
}.

(** What hapi makes of a request to a route with a payload schema: the
    validation runs first and a failure is answered 400 without the handler
    being called. *)
Inductive routed (A : Type) : Type :=
| BadRequest (details : list (string * string))
| Handled (answer : reply A).
Arguments BadRequest {A} details.
Arguments Handled {A} answer.

Module Server.
Import JS.

(** Line 12: [process.env.ML_SERVICE_URL || 'https://...']. *)
Definition ML_SERVICE_URL (configured : option string) : string :=
  match configured with
  | Some url => if String.eqb url "" then "https://api-ml-production.up.railway.app" else url
  | None => "https://api-ml-production.up.railway.app"
  end.

(** Lines 119-159.  axios rejects with an error object; the inner [catch]
    drops the error of the first request. *)
Definition mlHealthHandler (base : string) (env : MlHealthEnv)
  : reply MlHealthBody :=
  let connected (data : jsval) (url : string) :=
    Reply 200
      {| health_success := true;
         ml_service := Connected base data url (clock_iso env) |} in
  match ml_get env (base ++ "/api/health") with
  | Resolved data => connected data (base ++ "/api/health")
  | Rejected _ =>
      match ml_get env (base ++ "/health") with
      | Resolved data => connected data (base ++ "/health")
      | Rejected error =>
          Reply 503
            {| health_success := false;
               ml_service :=
                 Disconnected base (get error "message")
                   (get_opt (get error "response") "status")
                   (get_opt (get error "response") "data")
                   (clock_iso env) |}
      end
  end.

(** The loop of the start-up probe (lines 49-66 of the server file), from
    attempt [attempt] on with [remaining] attempts left.  [health k] tells
    whether the request of attempt [k] is answered. *)
Fixpoint probeFrom (health : nat -> bool) (maxRetries remaining attempt : nat)
  : ProbeResult :=
  match remaining with
  | O => {| mlConnected := false; events := [] |}
  | S remaining' =>
      if health attempt then
        {| mlConnected := true; events := [HealthRequest attempt] |}
      else
        let rest := probeFrom health maxRetries remaining' (S attempt) in
        {| mlConnected := mlConnected rest;
           events :=
             (HealthRequest attempt
              :: (if (attempt <? maxRetries)%nat then [Delay 5000] else [])
              ++ events rest)%list |}
  end.

(** [for (let attempt = 1; attempt <= maxRetries; attempt++)]. *)
Definition probeWithRetries (health : nat -> bool) (maxRetries : nat)
  : ProbeResult :=
  probeFrom health maxRetries maxRetries 1.

(** Lines 44-72 of the server file: [maxRetries = 3]. *)
Definition probeMlService (health : nat -> bool) : ProbeResult :=
  probeWithRetries health 3.

End Server.

Module Hapi.
Import Routes.

(** [POST /api/predict] as hapi serves it (lines 163-259): the payload
    schema, then the handler. *)
Definition predictRoute {rt : Runtime}
  (number_of_string : string -> option float) (env : PredictEnv)
  (payload : jsval) : routed PredictBody :=
  match validatePayload number_of_string payload with
  | inl inputData => Handled (predictHandler env inputData)
  | inr details => BadRequest details
  end.

End Hapi.

(** ** Vocabulary of the statements, and sample data *)

Import JS Prediction Routes.

(** The integers from [lo] to [hi], for checks by enumeration. *)
Definition Zrange (lo hi : Z) : list Z :=
  map (fun i => lo + Z.of_nat i) (seq 0 (Z.to_nat (hi - lo + 1))).

(** A payload of the given height and weight. *)
Definition body_of (h w : Z) : formData :=
  {| age := 0; gender := 0; height := h; weight := w; ap_hi := 0; ap_lo := 0;
     cholesterol := 0; gluc := 0; smoke := 0; alco := 0; active := 0 |}.

(** The third entry of [riskFactors]. *)
Definition bmiFactor (m : formData) : Z :=
  if PrimFloat.ltb 30 (calculatedBMI m) then 20
  else if PrimFloat.ltb 25 (calculatedBMI m) then 10 else 0.



(** A runtime to evaluate examples with: it prints and reads integers in
    decimal, which is all the examples ask of it, and their text is ASCII. *)
Definition integer_runtime : Runtime :=
  let read (s : string) : float :=
    match NilZero.int_of_string s with
    | Some n => Z2F (Z.of_int n)
    | None => PrimFloat.nan
    end in
  {| NumberToString := fun x =>
       match integer_value x with Some z => digits z | None => "NaN" end;
     StringToNumber := read;
     parseFloat := read;
     UnicodeUpperCase := fun s => s |}.

(** The two worked examples of section 8 of the specification. *)
Definition high_risk_patient : formData :=
  {| age := 60; gender := 2; height := 170; weight := 90; ap_hi := 150;
     ap_lo := 95; cholesterol := 3; gluc := 3; smoke := 1; alco := 0;
     active := 0 |}.

Definition low_risk_patient : formData :=
  {| age := 30; gender := 1; height := 165; weight := 55; ap_hi := 110;
     ap_lo := 70; cholesterol := 1; gluc := 1; smoke := 0; alco := 0;
     active := 1 |}.

(** A 140 cm, 49 kg patient whose other entries add up to 55. *)
Definition borderline_patient : formData :=
  {| age := 50; gender := 2; height := 140; weight := 49; ap_hi := 130;
     ap_lo := 85; cholesterol := 1; gluc := 1; smoke := 0; alco := 1;
     active := 1 |}.

(** What the remote body supplies as [risk_level], if anything. *)
Definition suppliedRiskLevel (data : jsval) : jsval :=
  or (get (or (get data "data") data) "risk_level") (get data "risk_level").

(** A remote answer that predicts 1 and calls the risk level LOW. *)
Definition disagreeing_reply : jsval :=
  JObj [("success", JBool true); ("prediction", JNum 1);
        ("risk_level", JStr "LOW")].

(** A body that reports a failure and carries a [prediction] member all the
    same. *)
Definition failure_with_null_prediction : jsval :=
  JObj [("success", JBool false); ("error", JStr "model not loaded");
        ("prediction", JNull)].

(** The remote call gave nothing to build a result from: the request was
    rejected (timeout, no connection, error status), the answer has no body,
    or the body has neither a set [success] flag nor a [prediction] member. *)
Inductive CallFailed : axios_reply -> Prop :=
| NoAnswer (error : jsval) : CallFailed (Rejected error)
| NoBody (data : jsval) : truthy data = false -> CallFailed (Resolved data)
| NoIndicator (data : jsval) :
    truthy (get data "success") = false ->
    get data "prediction" = JUndefined ->
    CallFailed (Resolved data).

(** A remote model that answers with a prediction computed from the body it
    received. *)
Definition echoing (observe : formData -> float) : formData -> axios_reply :=
  fun body => Resolved (JObj [("prediction", JNum (observe body))]).

(** What the remote body supplies as [confidence], if anything. *)
Definition suppliedConfidence (data : jsval) : jsval :=
  or (get (or (get data "data") data) "confidence") (get data "confidence").

(** What the remote body supplies as [bmi], if anything. *)
Definition suppliedBmi (data : jsval) : jsval :=
  or (get_opt (get (or (get data "data") data) "patient_data") "bmi")
     (get (or (get data "data") data) "bmi").

(** The members a result is built from can be converted: a supplied
    [confidence] to a number, a supplied [risk_level] is text, a supplied
    [bmi] prints.  A member that is not supplied is replaced by a default,
    which can. *)
Definition buildable {rt : Runtime} (data : jsval) : bool :=
  (negb (truthy (suppliedConfidence data))
   || match ToNumber (suppliedConfidence data) with Some _ => true | None => false end)
  && (negb (truthy (suppliedRiskLevel data))
      || match suppliedRiskLevel data with JStr _ => true | _ => false end)
  && (negb (truthy (suppliedBmi data))
      || match call_toString (suppliedBmi data) with Some _ => true | None => false end).

(** The remote answer is used: the request is answered, the body passes the
    test of line 41 and a result can be built from it. *)
Definition remoteAnswerUsed {rt : Runtime} (reply : axios_reply) : bool :=
  match reply with
  | Rejected _ => false
  | Resolved data => hasSuccessIndicator data && buildable data
  end.

(** A record store that refuses every write. *)
Definition failing_store_env : PredictEnv :=
  {| ml_post := fun _ => Rejected (JStr "connect ECONNREFUSED");
     user_agent_header := JUndefined;
     now := 1700000000000;
     random36 := "0.4fzyo82mvyr";
     db_insert := fun _ =>
       {| inserted := JNull;
          insert_error := JObj [("message", JStr "permission denied")] |} |}.

(** [a] may stand before [b] in a listing, most recent first. *)
Definition newer_or_same (a b : StoredRecord) : Prop :=
  created_at b <= created_at a.

(** Thirty records created at times 1 to 30. *)
Definition thirty_records : list StoredRecord :=
  map (fun t => {| record_id := t; created_at := t; record_risk := t mod 2;
                   record_gender := 1 + t mod 2 |}) (Zrange 1 30).

(** A store that serves [records] and refuses a range past their end. *)
Definition serving (records : list StoredRecord) : Store.t :=
  {| Store.records := records;
     Store.failure := JNull;
     Store.past_the_end :=
       {| selected := [];
          select_error := JObj [("message", JStr "Requested range not satisfiable")];
          count := 0 |} |}.

(** [?page=2&limit=10]. *)
Definition second_page : ListQuery :=
  {| page := 2; limit := 10; riskLevel := None; gender_filter := None |}.

(** [?page=90071992547410&limit=100]: a page the schema accepts, whose last
    position, 9007199254740999, lies between two binary64 numbers. *)
Definition far_page : ListQuery :=
  {| page := 90071992547410; limit := 100; riskLevel := None;
     gender_filter := None |}.

(** The sum of a list of integers. *)
Definition sum_of (xs : list Z) : Z := fold_right Z.add 0 xs.

(** A number that [item => item.bmi] keeps: not 0, not NaN. *)
Definition nonzero (x : float) : bool := truthy (JNum x).

(** The mean of a list of integers, 0 for the empty list. *)
Definition mean_of_integers (xs : list Z) : float :=
  match xs with
  | [] => 0%float
  | _ => PrimFloat.div (Z2F (sum_of xs))
           (Z2F (Z.of_nat (List.length xs)))
  end.

(** Two records, one stored with BMI 0 and one with BMI 20. *)
Definition rows_with_zero_bmi : list SummaryRow :=
  [ {| row_risk_prediction := 0; row_gender := 1; row_age := 30;
       row_bmi := Some 0%float |};
    {| row_risk_prediction := 1; row_gender := 2; row_age := 60;
       row_bmi := Some 20%float |} ].

(** Every error Joi would find with [abortEarly] off. *)
Definition report_all : Joi.preferences :=
  {| Joi.abortEarly := false; Joi.convert := Joi.convert Joi.defaults;
     Joi.allowUnknown := Joi.allowUnknown Joi.defaults |}.

(** What a body violates, member by member and in the order of the schema. *)
Definition all_violations (number_of_string : string -> option float)
  (payload : jsval) : list (string * string) :=
  Joi.object_errors number_of_string report_all payloadSchema payload.

(** The body a client sends for given metrics. *)
Definition payload_of (m : formData) : jsval :=
  JObj [ ("age", JNum (Z2F (age m))); ("gender", JNum (Z2F (gender m)));
         ("height", JNum (Z2F (height m))); ("weight", JNum (Z2F (weight m)));
         ("ap_hi", JNum (Z2F (ap_hi m))); ("ap_lo", JNum (Z2F (ap_lo m)));
         ("cholesterol", JNum (Z2F (cholesterol m)));
         ("gluc", JNum (Z2F (gluc m))); ("smoke", JNum (Z2F (smoke m)));
         ("alco", JNum (Z2F (alco m))); ("active", JNum (Z2F (active m))) ].

(** A body with two members out of their domains. *)
Definition doubly_invalid_payload : jsval :=
  JObj [ ("age", JNum 0); ("gender", JNum 3); ("height", JNum 170);
         ("weight", JNum 70); ("ap_hi", JNum 120); ("ap_lo", JNum 80);
         ("cholesterol", JNum 1); ("gluc", JNum 1); ("smoke", JNum 0);
         ("alco", JNum 0); ("active", JNum 1) ].

(** The number of requests and of delays in a run of the probe. *)
Definition requests (es : list probe_event) : nat :=
  List.length (filter (fun e => match e with HealthRequest _ => true | _ => false end) es).

Definition delays (es : list probe_event) : nat :=
  List.length (filter (fun e => match e with Delay _ => true | _ => false end) es).

(** The tenths that [toFixed(1)] prints for a positive number: [n] such that
    [n / 10] is nearest, the larger on a tie. *)
Definition tenths (x : float) : Z :=
  match Prim2SF x with
  | S754_finite _ m e => round_half_up_scaled 10 (Z.pos m) e
  | _ => 0
  end.

(** At height [h] and weight [w]: the computed BMI is positive and below
    10^21, and the tenths printed are within one half of ten times the exact
    BMI. *)
Definition bmi_display_agrees (h w : Z) : bool :=
  let m := body_of h w in
  let x := calculatedBMI m in
  match Prim2SF x with
  | S754_finite false _ _ =>
      negb (PrimFloat.leb 1e21 (PrimFloat.abs x))
      && Qle_bool (Qabs (10 * Spec.BMI m - inject_Z (tenths x))) (1 # 2)
      && (48 <=? tenths x) && (tenths x <=? 2000)
  | _ => false
  end.

(** A body nested under [data], as the remote model may send it. *)
Definition wrapped (flag body : jsval) : jsval :=
  JObj [("success", flag); ("data", body)].

(** A remote answer with a confidence of 0 and no BMI. *)
Definition zero_confidence_reply : jsval :=
  JObj [("prediction", JNum 0); ("confidence", JNum 0)].

(** The same query for another page. *)
Definition with_page (q : ListQuery) (p : Z) : ListQuery :=
  {| page := p; limit := limit q; riskLevel := riskLevel q;
     gender_filter := gender_filter q |}.

(** The records a page of the listing shows, against a given store. *)
Definition page_data (store : Store.t) (q : ListQuery) : list StoredRecord :=
  match listHandler (Store.select store) q with
  | Reply _ b => data b
  | Fault _ _ => []
  end.

(** A record without a BMI among two with one. *)
Definition rows_with_gap : list SummaryRow :=
  [ {| row_risk_prediction := 0; row_gender := 1; row_age := 30;
       row_bmi := Some 20.5%float |};
    {| row_risk_prediction := 1; row_gender := 2; row_age := 60;
       row_bmi := None |};
    {| row_risk_prediction := 1; row_gender := 2; row_age := 45;
       row_bmi := Some 31%float |} ].

(** * Properties *)

(** ** Binary64 arithmetic on integers

    The sum, the difference and the product of two non-negative integers
    are exact in binary64 as long as the result stays below 2^53.  The
    primitive operations are specified by [SpecFloat]'s addition,
    subtraction and multiplication, which round the exact result; a result
    that is an integer of at most 53 digits is its own rounding. *)

Lemma digits2_bounds (p : positive) :
  2 ^ (digits2 p - 1) <= Z.pos p < 2 ^ digits2 p.
Proof.
  unfold digits2. induction p as [p IH|p IH|]; cbn [digits2_pos].
  - rewrite Pos2Z.inj_succ.
    replace (Z.succ (Z.pos (digits2_pos p)) - 1) with (Z.succ (Z.pos (digits2_pos p) - 1)) by lia.
    rewrite !Z.pow_succ_r by lia. lia.
  - rewrite Pos2Z.inj_succ.
    replace (Z.succ (Z.pos (digits2_pos p)) - 1) with (Z.succ (Z.pos (digits2_pos p) - 1)) by lia.
    rewrite !Z.pow_succ_r by lia. lia.
  - cbn. lia.
Qed.

Lemma digits2_unique (p : positive) (d : Z) :
  2 ^ (d - 1) <= Z.pos p < 2 ^ d -> digits2 p = d.
Proof.
  intros [Hlo Hhi]. pose proof (digits2_bounds p) as [Hlo' Hhi'].
  assert (Hd : 0 < d).
  { destruct (Z.ltb_spec 0 d); [assumption|].
    assert (2 ^ d <= 2 ^ 0) by (apply Z.pow_le_mono_r; lia). cbn in *. lia. }
  assert (Hp : 0 < digits2 p) by (unfold digits2; lia).
  destruct (Z.lt_trichotomy (digits2 p) d) as [Hlt|[Heq|Hgt]]; [|exact Heq|].
  - assert (2 ^ digits2 p <= 2 ^ (d - 1)) by (apply Z.pow_le_mono_r; lia). lia.
  - assert (2 ^ d <= 2 ^ (digits2 p - 1)) by (apply Z.pow_le_mono_r; lia). lia.
Qed.

Lemma digits2_scaled (m p : positive) (k : Z) :
  0 <= k -> Z.pos m = Z.pos p * 2 ^ k -> digits2 m = digits2 p + k.
Proof.
  intros Hk Hm. apply digits2_unique. rewrite Hm.
  pose proof (digits2_bounds p) as [Hlo Hhi].
  assert (Hp : 0 < digits2 p) by (unfold digits2; lia).
  replace (digits2 p + k - 1) with (digits2 p - 1 + k) by lia.
  rewrite !Z.pow_add_r by lia.
  assert (0 < 2 ^ k) by (apply Z.pow_pos_nonneg; lia).
  nia.
Qed.

Lemma digits2_small (p : positive) : Z.pos p < 2 ^ 53 -> digits2 p <= 53.
Proof.
  intros Hp. pose proof (digits2_bounds p) as [Hlo _].
  destruct (Z.leb_spec (digits2 p) 53); [assumption|].
  assert (2 ^ 53 <= 2 ^ (digits2 p - 1)) by (apply Z.pow_le_mono_r; lia). lia.
Qed.

Lemma iter_xO_value (m d : positive) :
  Z.pos (Pos.iter xO m d) = Z.pos m * 2 ^ Z.pos d.
Proof.
  induction d as [|d IH] using Pos.peano_ind.
  - cbn. lia.
  - rewrite Pos.iter_succ, Pos2Z.inj_succ, Z.pow_succ_r by lia.
    rewrite Pos2Z.inj_xO, IH. lia.
Qed.

Lemma shr_exact (n q m : positive) :
  Z.pos m = Z.pos q * 2 ^ Z.pos n ->
  iter_pos shr_1 n {| shr_m := Z.pos m; shr_r := false; shr_s := false |}
  = {| shr_m := Z.pos q; shr_r := false; shr_s := false |}.
Proof.
  revert q m. induction n as [n IH|n IH|]; intros q m Hm; cbn [iter_pos].
  - assert (Hpow : 0 < 2 ^ Z.pos n) by (apply Z.pow_pos_nonneg; lia).
    rewrite (Pos2Z.inj_xI n) in Hm.
    replace (2 * Z.pos n + 1) with (Z.pos n + Z.pos n + 1) in Hm by lia.
    rewrite !Z.pow_add_r in Hm by lia. change (2 ^ 1) with 2 in Hm.
    set (mid := Z.to_pos (Z.pos q * 2 ^ Z.pos n)).
    set (top := Z.to_pos (Z.pos q * 2 ^ Z.pos n * 2 ^ Z.pos n)).
    assert (Hmid : Z.pos mid = Z.pos q * 2 ^ Z.pos n) by (unfold mid; rewrite Z2Pos.id; nia).
    assert (Htop : Z.pos top = Z.pos mid * 2 ^ Z.pos n)
      by (unfold top; rewrite Z2Pos.id; nia).
    assert (Hfirst : m = xO top) by nia.
    rewrite Hfirst. cbn [shr_1 orb].
    rewrite (IH mid top Htop). apply IH, Hmid.
  - assert (Hpow : 0 < 2 ^ Z.pos n) by (apply Z.pow_pos_nonneg; lia).
    rewrite (Pos2Z.inj_xO n) in Hm.
    replace (2 * Z.pos n) with (Z.pos n + Z.pos n) in Hm by lia.
    rewrite !Z.pow_add_r in Hm by lia.
    set (mid := Z.to_pos (Z.pos q * 2 ^ Z.pos n)).
    assert (Hmid : Z.pos mid = Z.pos q * 2 ^ Z.pos n) by (unfold mid; rewrite Z2Pos.id; nia).
    rewrite (IH mid m) by nia. apply IH, Hmid.
  - change (2 ^ 1) with 2 in Hm. assert (Hfirst : m = xO q) by lia.
    rewrite Hfirst. reflexivity.
Qed.

Lemma fexp_small (d : Z) : 1 <= d -> fexp prec emax d = d - 53.
Proof. intros Hd. unfold fexp, SpecFloat.emin, prec, emax. lia. Qed.

Lemma digits2_positive (p : positive) : 1 <= digits2 p.
Proof. unfold digits2. lia. Qed.

Lemma canonical_mantissa_value (p : positive) :
  digits2 p <= 53 ->
  Z.pos (Z.to_pos (Z.pos p * 2 ^ (53 - digits2 p))) = Z.pos p * 2 ^ (53 - digits2 p).
Proof.
  intros Hd. apply Z2Pos.id.
  assert (0 < 2 ^ (53 - digits2 p)) by (apply Z.pow_pos_nonneg; lia). nia.
Qed.

Lemma shr_fexp_exact (m p : positive) (k : Z) :
  0 <= k -> Z.pos m = Z.pos p * 2 ^ k ->
  digits2 p <= 53 -> 53 <= digits2 p + k ->
  shr_fexp prec emax (Z.pos m) (- k) loc_Exact =
  ({| shr_m := Z.pos (Z.to_pos (Z.pos p * 2 ^ (53 - digits2 p)));
      shr_r := false; shr_s := false |}, digits2 p - 53).
Proof.
  intros Hk Hm Hd Hdk. unfold shr_fexp. cbn [Zdigits2 shr_record_of_loc].
  fold (digits2 m). rewrite (digits2_scaled m p k Hk Hm).
  replace (digits2 p + k + - k) with (digits2 p) by lia.
  rewrite fexp_small by apply digits2_positive.
  pose proof (canonical_mantissa_value p Hd) as Hq.
  unfold shr. destruct (digits2 p - 53 - - k) as [|n|n] eqn:Hn; [| |lia].
  - f_equal; [|lia]. f_equal. rewrite Hq, Hm. f_equal. f_equal. lia.
  - f_equal; [|lia]. apply shr_exact. rewrite Hq, Hm.
    rewrite <- Z.mul_assoc, <- Z.pow_add_r by lia. f_equal. f_equal. lia.
Qed.

Lemma round_aux_exact (s : bool) (m p : positive) (k : Z) :
  0 <= k -> Z.pos m = Z.pos p * 2 ^ k ->
  digits2 p <= 53 -> 53 <= digits2 p + k ->
  binary_round_aux prec emax s (Z.pos m) (- k) loc_Exact = canonical s p.
Proof.
  intros Hk Hm Hd Hdk. unfold binary_round_aux.
  rewrite (shr_fexp_exact m p k Hk Hm Hd Hdk).
  cbn [shr_m loc_of_shr_record round_nearest_even].
  replace (digits2 p - 53) with (- (53 - digits2 p)) at 1 by lia.
  rewrite (shr_fexp_exact _ p (53 - digits2 p));
    [|lia|apply canonical_mantissa_value, Hd|exact Hd|lia].
  cbn [shr_m]. unfold canonical.
  replace (digits2 p - 53 <=? emax - prec) with true; [reflexivity|].
  symmetry. apply Z.leb_le. unfold emax, prec. lia.
Qed.

Lemma round_exact (s : bool) (m p : positive) (k : Z) :
  0 <= k -> Z.pos m = Z.pos p * 2 ^ k -> digits2 p <= 53 ->
  binary_round prec emax s m (- k) = canonical s p.
Proof.
  intros Hk Hm Hd. unfold binary_round, shl_align.
  fold (digits2 m). rewrite (digits2_scaled m p k Hk Hm).
  replace (digits2 p + k + - k) with (digits2 p) by lia.
  rewrite fexp_small by apply digits2_positive.
  destruct (digits2 p - 53 - - k) as [|n|n] eqn:Hn.
  - apply round_aux_exact; try assumption; lia.
  - apply round_aux_exact; try assumption; lia.
  - replace (digits2 p - 53) with (- (53 - digits2 p)) by lia.
    apply round_aux_exact; try assumption; try lia.
    rewrite iter_xO_value, Hm, <- Z.mul_assoc, <- Z.pow_add_r by lia.
    f_equal. f_equal. lia.
Qed.

Lemma Z2F_spec (z : Z) :
  0 <= z < 2 ^ 53 -> Prim2SF (Z2F z) = binary_normalize prec emax z 0 false.
Proof.
  intros Hz. unfold Z2F.
  replace (Z.abs z <? 9223372036854775808) with true
    by (symmetry; apply Z.ltb_lt; change (2 ^ 53) with 9007199254740992 in Hz; lia).
  replace (z <? 0) with false by (symmetry; apply Z.ltb_ge; lia).
  rewrite of_uint63_spec, Uint63.of_Z_spec.
  rewrite Z.mod_small; [reflexivity|].
  change (2 ^ 53) with 9007199254740992 in Hz.
  change wB with 9223372036854775808. lia.
Qed.

Lemma Z2F_canonical (p : positive) :
  Z.pos p < 2 ^ 53 -> Prim2SF (Z2F (Z.pos p)) = canonical false p.
Proof.
  intros Hp. rewrite Z2F_spec by lia. cbn [binary_normalize].
  change 0 with (- 0). apply round_exact; [lia|cbn; lia|].
  apply digits2_small, Hp.
Qed.

Lemma normalize_exact (D k v : Z) :
  0 <= k -> 0 <= v < 2 ^ 53 -> D = v * 2 ^ k ->
  binary_normalize prec emax D (- k) false = Prim2SF (Z2F v).
Proof.
  intros Hk Hv HD.
  assert (Hpow : 0 < 2 ^ k) by (apply Z.pow_pos_nonneg; lia).
  destruct v as [|p|p]; [| |lia].
  - subst D. reflexivity.
  - rewrite Z2F_canonical by lia.
    destruct D as [|M|M]; [nia| |nia]. cbn [binary_normalize].
    apply round_exact; [exact Hk|exact HD|]. apply digits2_small. lia.
Qed.

Lemma shl_align_value (m : positive) (e e' : Z) :
  e' <= e -> Z.pos (fst (shl_align m e e')) = Z.pos m * 2 ^ (e - e').
Proof.
  intros He. unfold shl_align. destruct (e' - e) as [|n|n] eqn:Hn; [|lia|].
  - cbn [fst]. replace (e - e') with 0 by lia. lia.
  - cbn [fst]. rewrite iter_xO_value. f_equal. f_equal. lia.
Qed.

(** The mantissas of two canonical integers, brought to the smaller
    exponent. *)
Lemma aligned_value (p q : positive) :
  digits2 p <= 53 -> digits2 q <= 53 ->
  let ez := Z.min (digits2 p - 53) (digits2 q - 53) in
  Z.pos (fst (shl_align (Z.to_pos (Z.pos p * 2 ^ (53 - digits2 p)))
                (digits2 p - 53) ez))
  = Z.pos p * 2 ^ (- ez).
Proof.
  intros Hp Hq ez. rewrite shl_align_value by (unfold ez; lia).
  rewrite canonical_mantissa_value by exact Hp.
  rewrite <- Z.mul_assoc, <- Z.pow_add_r by (unfold ez; lia).
  f_equal. f_equal. lia.
Qed.

Lemma add_exact (a b : Z) :
  0 <= a -> 0 <= b -> a + b < 2 ^ 53 ->
  PrimFloat.add (Z2F a) (Z2F b) = Z2F (a + b).
Proof.
  intros Ha Hb Hsum. apply Prim2SF_inj. rewrite FloatAxioms.add_spec.
  destruct a as [|p|p], b as [|q|q]; try lia.
  - reflexivity.
  - change (0 + Z.pos q) with (Z.pos q). rewrite Z2F_canonical by lia.
    change (Prim2SF (Z2F 0)) with (S754_zero false). reflexivity.
  - rewrite Z.add_0_r, Z2F_canonical by lia.
    change (Prim2SF (Z2F 0)) with (S754_zero false). reflexivity.
  - assert (Hp : digits2 p <= 53) by (apply digits2_small; lia).
    assert (Hq : digits2 q <= 53) by (apply digits2_small; lia).
    rewrite (Z2F_canonical p), (Z2F_canonical q) by lia.
    unfold SF64add, SFadd, canonical. cbv zeta. cbn [cond_Zopp].
    rewrite (aligned_value p q Hp Hq).
    rewrite (Z.min_comm (digits2 p - 53)), (aligned_value q p Hq Hp).
    set (ez := Z.min (digits2 q - 53) (digits2 p - 53)).
    replace ez with (- - ez) at 3 by lia.
    apply normalize_exact; unfold ez; lia.
Qed.

Lemma sub_exact (a b : Z) :
  0 <= b <= a -> a < 2 ^ 53 ->
  PrimFloat.sub (Z2F a) (Z2F b) = Z2F (a - b).
Proof.
  intros Hb Ha. apply Prim2SF_inj. rewrite FloatAxioms.sub_spec.
  destruct a as [|p|p], b as [|q|q]; try lia.
  - reflexivity.
  - rewrite Z.sub_0_r, Z2F_canonical by lia.
    change (Prim2SF (Z2F 0)) with (S754_zero false). reflexivity.
  - assert (Hp : digits2 p <= 53) by (apply digits2_small; lia).
    assert (Hq : digits2 q <= 53) by (apply digits2_small; lia).
    rewrite (Z2F_canonical p), (Z2F_canonical q) by lia.
    unfold SF64sub, SFsub, canonical. cbv zeta. cbn [cond_Zopp].
    rewrite (aligned_value p q Hp Hq).
    rewrite (Z.min_comm (digits2 p - 53)), (aligned_value q p Hq Hp).
    set (ez := Z.min (digits2 q - 53) (digits2 p - 53)).
    replace ez with (- - ez) at 3 by lia.
    apply normalize_exact; unfold ez; lia.
Qed.

Lemma mul_exact (a b : Z) :
  0 <= a -> 0 <= b -> a < 2 ^ 53 -> b < 2 ^ 53 -> a * b < 2 ^ 53 ->
  PrimFloat.mul (Z2F a) (Z2F b) = Z2F (a * b).
Proof.
  intros Ha Hb Ha' Hb' Hprod. apply Prim2SF_inj. rewrite FloatAxioms.mul_spec.
  destruct a as [|p|p], b as [|q|q]; try lia.
  - reflexivity.
  - rewrite Z2F_canonical by lia.
    change (Prim2SF (Z2F 0)) with (S754_zero false). reflexivity.
  - rewrite Z.mul_0_r, Z2F_canonical by lia.
    change (Prim2SF (Z2F 0)) with (S754_zero false). reflexivity.
  - assert (Hp : digits2 p <= 53) by (apply digits2_small; lia).
    assert (Hq : digits2 q <= 53) by (apply digits2_small; lia).
    rewrite (Z2F_canonical p), (Z2F_canonical q) by lia.
    change (Z.pos p * Z.pos q) with (Z.pos (p * q)) in *.
    rewrite (Z2F_canonical (p * q)) by lia.
    unfold canonical at 1 2. unfold SF64mul, SFmul. cbn [xorb].
    replace (digits2 p - 53 + (digits2 q - 53))
      with (- (106 - digits2 p - digits2 q)) by lia.
    apply round_aux_exact.
    + lia.
    + rewrite Pos2Z.inj_mul, !canonical_mantissa_value by assumption.
      rewrite Pos2Z.inj_mul.
      replace (106 - digits2 p - digits2 q)
        with ((53 - digits2 p) + (53 - digits2 q)) by lia.
      rewrite Z.pow_add_r by lia. ring.
    + apply digits2_small. lia.
    + pose proof (digits2_bounds p) as [Hlp _].
      pose proof (digits2_bounds q) as [Hlq _].
      pose proof (digits2_bounds (p * q)) as [_ Hhpq].
      rewrite Pos2Z.inj_mul in Hhpq.
      pose proof (digits2_positive p). pose proof (digits2_positive q).
      destruct (Z.leb_spec (digits2 p + digits2 q - 1) (digits2 (p * q)));
        [lia|].
      assert (2 ^ digits2 (p * q) <= 2 ^ ((digits2 p - 1) + (digits2 q - 1)))
        by (apply Z.pow_le_mono_r; lia).
      rewrite Z.pow_add_r in * by lia.
      assert (0 < 2 ^ (digits2 p - 1)) by (apply Z.pow_pos_nonneg; lia).
      assert (0 < 2 ^ (digits2 q - 1)) by (apply Z.pow_pos_nonneg; lia).
      nia.
Qed.

Lemma integer_value_exact (z : Z) :
  0 <= z < 2 ^ 53 -> integer_value (Z2F z) = Some z.
Proof.
  intros Hz. destruct z as [|p|p]; [reflexivity| |lia].
  unfold integer_value. rewrite Z2F_canonical by lia. unfold canonical.
  assert (Hd : digits2 p <= 53) by (apply digits2_small; lia).
  rewrite (canonical_mantissa_value p Hd).
  destruct (Z.leb_spec 0 (digits2 p - 53)) as [He|He].
  - replace (digits2 p - 53) with 0 by lia.
    replace (53 - digits2 p) with 0 by lia. f_equal. cbn. lia.
  - replace (- (digits2 p - 53)) with (53 - digits2 p) by lia.
    assert (0 < 2 ^ (53 - digits2 p)) by (apply Z.pow_pos_nonneg; lia).
    rewrite Z.mod_mul by lia. cbn [Z.eqb]. rewrite Z.div_mul by lia. reflexivity.
Qed.

(** ** Checks by enumeration *)

Lemma Zrange_In (lo hi z : Z) : lo <= z <= hi -> In z (Zrange lo hi).
Proof.
  intros Hz. unfold Zrange. apply in_map_iff.
  exists (Z.to_nat (z - lo)). split; [lia|]. apply in_seq. lia.
Qed.

Lemma forallb_Zrange (p : Z -> bool) (lo hi : Z) :
  forallb p (Zrange lo hi) = true -> forall z, lo <= z <= hi -> p z = true.
Proof.
  intros Hall z Hz. rewrite forallb_forall in Hall. apply Hall, Zrange_In, Hz.
Qed.

(** ** The rule-based score *)



Lemma totalRisk_unfold (m : formData) :
  totalRisk m =
  Spec.age_points m + Spec.gender_points m + bmiFactor m + Spec.systolic_points m
  + Spec.diastolic_points m + Spec.cholesterol_points m + Spec.glucose_points m
  + Spec.smoker_points m + Spec.alcohol_points m
  + (if active m =? 0 then 10 else 0).
Proof. reflexivity. Qed.




(** Four entries are at least 5 and none is negative. *)
Lemma factor_bounds (m : formData) :
  5 <= Spec.age_points m /\ 5 <= Spec.gender_points m /\ 0 <= bmiFactor m /\
  5 <= Spec.systolic_points m /\ 5 <= Spec.diastolic_points m /\
  0 <= Spec.cholesterol_points m /\ 0 <= Spec.glucose_points m /\
  0 <= Spec.smoker_points m /\ 0 <= Spec.alcohol_points m /\
  0 <= (if active m =? 0 then 10 else 0).
Proof.
  unfold Spec.age_points, Spec.gender_points, bmiFactor, Spec.systolic_points,
    Spec.diastolic_points, Spec.cholesterol_points, Spec.glucose_points,
    Spec.smoker_points, Spec.alcohol_points.
  repeat split;
    repeat match goal with |- context [if ?b then _ else _] => destruct b end; lia.
Qed.

Lemma totalRisk_at_least_20 (m : formData) : 20 <= totalRisk m.
Proof.
  rewrite totalRisk_unfold. pose proof (factor_bounds m). lia.
Qed.

Lemma high_risk_patient_valid : Spec.valid high_risk_patient.
Proof. unfold Spec.valid; cbn; lia. Defined.

Lemma low_risk_patient_valid : Spec.valid low_risk_patient.
Proof. unfold Spec.valid; cbn; lia. Defined.

Example high_risk_patient_result :
  @ruleBasedPrediction integer_runtime high_risk_patient =
  {| risk := JNum 1; confidence := 95; probability := JNum (95 / 100);
     risk_label := "High Risk"; bmi := "31.1"; source := "rule_based";
     ml_details := None |}
  /\ totalRisk high_risk_patient = 170.
Proof. split; vm_compute; reflexivity. Qed.

Example low_risk_patient_result :
  @ruleBasedPrediction integer_runtime low_risk_patient =
  {| risk := JNum 0; confidence := 20; probability := JNum (20 / 100);
     risk_label := "Low Risk"; bmi := "20.2"; source := "rule_based";
     ml_details := None |}
  /\ totalRisk low_risk_patient = 20.
Proof. split; vm_compute; reflexivity. Qed.

(** C2.  The estimator misses the BMI threshold of 25 at one valid input.
    For height 140 and weight 49 the BMI is exactly 25, which is not above
    25 and adds nothing: the sum of the contributions is 55, the confidence
    55 and the risk 0.  The source divides in binary64 and gets
    25.000000000000004 (0x1.9000000000001p+4), which it finds above 25 and
    scores 10: its sum is 65, its confidence 65 and its risk 1, while the BMI
    it prints in the same result is 25.0. *)
Theorem C2_bmi_threshold_rounding :
  Spec.valid borderline_patient /\
  (Spec.BMI borderline_patient == 25)%Q /\
  Spec.score borderline_patient = 55 /\
  Spec.confidence borderline_patient = 55 /\
  Spec.risk borderline_patient = 0 /\
  calculatedBMI borderline_patient = 0x1.9000000000001p+4%float /\
  totalRisk borderline_patient = 65 /\
  ruleConfidence borderline_patient = 65 /\
  ruleRisk borderline_patient = 1 /\
  forall rt : Runtime,
    @ruleBasedPrediction rt borderline_patient =
    {| risk := JNum 1; confidence := 65; probability := JNum (65 / 100);
       risk_label := "High Risk"; bmi := "25.0"; source := "rule_based";
       ml_details := None |}.
Proof.
  split; [unfold Spec.valid; cbn; lia|].
  split; [reflexivity|].
  repeat split; try (vm_compute; reflexivity).
Qed.

Section RuleBased.
Context {rt : Runtime}.


(** C10.  For every valid PatientMetrics the age, gender, systolic and
    diastolic entries of the risk factors are at least 5 each and no entry
    is negative; their sum is at least 20, so the lower clamp at 10 changes
    nothing and the rule-based confidence lies in [20, 95]. *)
Theorem C10_confidence_range (m : formData) :
  Spec.valid m ->
  (5 <= nth 0 (riskFactors m) 0 /\ 5 <= nth 1 (riskFactors m) 0 /\
   5 <= nth 3 (riskFactors m) 0 /\ 5 <= nth 4 (riskFactors m) 0) /\
  Forall (fun entry => 0 <= entry) (riskFactors m) /\
  20 <= totalRisk m /\
  Z.max (totalRisk m) 10 = totalRisk m /\
  20 <= ruleConfidence m <= 95 /\
  confidence (ruleBasedPrediction m) = Z2F (ruleConfidence m).
Proof.
  intros _. pose proof (totalRisk_at_least_20 m) as Hlow.
  pose proof (factor_bounds m) as
    (Hage & Hgender & Hbmi & Hhi & Hlo & Hchol & Hgluc & Hsmoke & Halco & Hact).
  split; [repeat split; assumption|].
  split.
  { change (riskFactors m) with
      [Spec.age_points m; Spec.gender_points m; bmiFactor m;
       Spec.systolic_points m; Spec.diastolic_points m;
       Spec.cholesterol_points m; Spec.glucose_points m;
       Spec.smoker_points m; Spec.alcohol_points m;
       if active m =? 0 then 10 else 0].
    repeat (apply Forall_cons; [lia|]). apply Forall_nil. }
  unfold ruleConfidence. repeat split; lia.
Qed.

End RuleBased.

(** C10 at the second worked example of the specification. *)
Lemma C10_confidence_range_witness :
  Spec.valid low_risk_patient /\
  let m := low_risk_patient in
  (5 <= nth 0 (riskFactors m) 0 /\ 5 <= nth 1 (riskFactors m) 0 /\
   5 <= nth 3 (riskFactors m) 0 /\ 5 <= nth 4 (riskFactors m) 0) /\
  Forall (fun entry => 0 <= entry) (riskFactors m) /\
  20 <= totalRisk m /\
  Z.max (totalRisk m) 10 = totalRisk m /\
  20 <= ruleConfidence m <= 95 /\
  confidence (@ruleBasedPrediction integer_runtime m) = Z2F (ruleConfidence m).
Proof.
  split.
  - exact low_risk_patient_valid.
  - exact (@C10_confidence_range integer_runtime low_risk_patient
             low_risk_patient_valid).
Defined.

(** ** The remote call and the fallback *)

Section Fallback.
Context {rt : Runtime}.

Lemma fallback_when_no_result (post : formData -> axios_reply) (m : formData) :
  (forall r, tryMlService post m <> Returned r) ->
  predictCardiovascularRisk post m = ruleBasedPrediction m.
Proof.
  intros Hnone. unfold predictCardiovascularRisk.
  destruct (tryMlService post m) as [r| |]; [|reflexivity|reflexivity].
  now destruct (Hnone r).
Qed.

(** A failed call, in the sense above, is a failure in the sense of section
    4.2. *)
Lemma call_failed_is_remote_error (reply : axios_reply) :
  CallFailed reply -> Spec.RemoteError reply.
Proof.
  intros [e|data Hempty|data Hflag Hnone].
  - apply Spec.TransportError.
  - destruct data as [| |b|x|t| |]; try discriminate;
      apply Spec.FailureResponse; reflexivity.
  - apply Spec.FailureResponse; [exact Hflag|]. now rewrite Hnone.
Qed.

(** A body that did not parse reaches the function as text, which has
    neither a [success] nor a [prediction] member. *)
Lemma unparsed_body_fails (text : string) : CallFailed (Resolved (JStr text)).
Proof. apply NoIndicator; reflexivity. Qed.

Lemma call_failed_gives_no_result (post : formData -> axios_reply)
  (m : formData) :
  CallFailed (post (mlRequestBody m)) ->
  forall r, tryMlService post m <> Returned r.
Proof.
  intros Hfailed r. unfold tryMlService, hasSuccessIndicator.
  inversion Hfailed as [e He | d Hd He | d Hs Hp He]; clear Hfailed.
  - discriminate.
  - rewrite Hd. discriminate.
  - rewrite Hs, Hp. rewrite andb_false_r. discriminate.
Qed.

(** C1, amended.  For every valid PatientMetrics, if the remote call fails
    (the request is rejected: timeout, connection error, error status; or
    the answer has no body; or the body has neither a set [success] flag nor
    a [prediction] member, as a body that did not parse), which is a failure
    in the sense of section 4.2, [predictCardiovascularRisk] returns the
    rule-based result: its source is [rule_based] and it has no
    [ml_details].  The function returns a PredictionResult and raises
    nothing. *)
Theorem C1_fallback_on_remote_error (post : formData -> axios_reply)
  (m : formData) :
  Spec.valid m ->
  CallFailed (post (mlRequestBody m)) ->
  let r := predictCardiovascularRisk post m in
  Spec.RemoteError (post (mlRequestBody m)) /\
  r = ruleBasedPrediction m /\ source r = "rule_based" /\ ml_details r = None.
Proof.
  intros _ Hfailed r.
  split; [apply call_failed_is_remote_error, Hfailed|].
  assert (Hr : r = ruleBasedPrediction m).
  { apply fallback_when_no_result, call_failed_gives_no_result, Hfailed. }
  rewrite Hr. repeat split.
Qed.

(** C3.  For every valid PatientMetrics, the body sent to the remote model
    carries gender 0 for a caller's 1 and gender 1 for a caller's 2, and
    every other member unchanged.  That body is what the remote model
    receives: when the model answers with a prediction computed from the
    body it received, whatever the computation, the result carries the
    prediction computed from the remapped body; and the result depends on
    the model only through its answer to that body. *)
Theorem C3_gender_remap (m : formData) :
  Spec.valid m ->
  let sent := mlRequestBody m in
  (gender m = 1 -> gender sent = 0) /\
  (gender m = 2 -> gender sent = 1) /\
  (age sent, height sent, weight sent, ap_hi sent, ap_lo sent) =
    (age m, height m, weight m, ap_hi m, ap_lo m) /\
  (cholesterol sent, gluc sent, smoke sent, alco sent, active sent) =
    (cholesterol m, gluc m, smoke m, alco m, active m) /\
  (forall observe : formData -> float,
     let r := predictCardiovascularRisk (echoing observe) m in
     source r = "ml_model" /\ risk r = JNum (observe sent)) /\
  forall post post' : formData -> axios_reply,
    post sent = post' sent ->
    predictCardiovascularRisk post m = predictCardiovascularRisk post' m.
Proof.
  intros _ sent. repeat split.
  - intros H. unfold sent; cbn. now rewrite H.
  - intros H. unfold sent; cbn. now rewrite H.
  - intros post post' Hsame.
    unfold predictCardiovascularRisk, tryMlService. fold sent. now rewrite Hsame.
Qed.

End Fallback.

(** C1, as stated, fails for a body that reports a failure and carries a
    [prediction] member that is no prediction: its [success] flag is false
    and [null] is not a parseable prediction, so the call has failed in the
    sense of section 4.2; the source reads the body as an answer and
    returns a model-backed result, whose risk is [null]. *)
Lemma C1_counterexample :
  exists r : PredictionResult,
    (forall rt : Runtime,
       @predictCardiovascularRisk rt
         (fun _ => Resolved failure_with_null_prediction) low_risk_patient = r)
    /\ Spec.valid low_risk_patient
    /\ Spec.RemoteError (Resolved failure_with_null_prediction)
    /\ source r = "ml_model"
    /\ ml_details r <> None
    /\ risk r = JNull.
Proof.
  eexists. split; [intros rt; vm_compute; reflexivity|].
  split; [exact low_risk_patient_valid|].
  split; [apply Spec.FailureResponse; reflexivity|].
  repeat split. discriminate.
Qed.

(** C1 for a remote call that times out. *)
Lemma C1_fallback_on_remote_error_witness :
  let post := fun _ : formData => Rejected (JStr "timeout of 15000ms exceeded") in
  let m := low_risk_patient in
  Spec.valid m /\
  CallFailed (post (mlRequestBody m)) /\
  let r := @predictCardiovascularRisk integer_runtime post m in
  Spec.RemoteError (post (mlRequestBody m)) /\
  r = @ruleBasedPrediction integer_runtime m
  /\ source r = "rule_based" /\ ml_details r = None.
Proof.
  split; [exact low_risk_patient_valid|].
  split; [apply NoAnswer|].
  exact (@C1_fallback_on_remote_error integer_runtime
           (fun _ => Rejected (JStr "timeout of 15000ms exceeded"))
           low_risk_patient low_risk_patient_valid (NoAnswer _)).
Defined.

(** C3 for a female patient. *)
Lemma C3_gender_remap_witness :
  let m := low_risk_patient in
  Spec.valid m /\
  let sent := mlRequestBody m in
  (gender m = 1 -> gender sent = 0) /\
  (gender m = 2 -> gender sent = 1) /\
  (age sent, height sent, weight sent, ap_hi sent, ap_lo sent) =
    (age m, height m, weight m, ap_hi m, ap_lo m) /\
  (cholesterol sent, gluc sent, smoke sent, alco sent, active sent) =
    (cholesterol m, gluc m, smoke m, alco m, active m) /\
  (forall observe : formData -> float,
     let r := @predictCardiovascularRisk integer_runtime (echoing observe) m in
     source r = "ml_model" /\ risk r = JNum (observe sent)) /\
  forall post post' : formData -> axios_reply,
    post sent = post' sent ->
    @predictCardiovascularRisk integer_runtime post m =
    @predictCardiovascularRisk integer_runtime post' m.
Proof.
  split; [exact low_risk_patient_valid|].
  exact (@C3_gender_remap integer_runtime low_risk_patient low_risk_patient_valid).
Defined.

(** The remapped gender reaches the remote model: a model that answers with
    the gender it was sent gives 0 for a female patient and 1 for a male
    one. *)
Example gender_as_received :
  risk (@predictCardiovascularRisk integer_runtime
          (echoing (fun body => Z2F (gender body))) low_risk_patient) = JNum 0
  /\ risk (@predictCardiovascularRisk integer_runtime
             (echoing (fun body => Z2F (gender body))) high_risk_patient) = JNum 1.
Proof. split; vm_compute; reflexivity. Qed.

(** ** The risk label *)

(** C4, as stated, fails on the remote path: the label follows the
    [risk_level] the remote body supplies, not [risk].  Whatever the
    runtime, the answer above gives a model-backed result with risk 1 and
    the label of a low risk. *)
Lemma C4_counterexample :
  exists r : PredictionResult,
    (forall rt : Runtime,
       @predictCardiovascularRisk rt (fun _ => Resolved disagreeing_reply)
         low_risk_patient = r)
    /\ source r = "ml_model"
    /\ risk r = JNum 1
    /\ risk_label r = "Low Risk"
    /\ Spec.label_of_risk (risk r) = "High Risk".
Proof.
  eexists. split; [intros rt; vm_compute; reflexivity|].
  repeat split.
Qed.

Section RiskLabel.
Context {rt : Runtime}.

Lemma rule_based_label (m : formData) :
  risk_label (ruleBasedPrediction m) =
  Spec.label_of_risk (risk (ruleBasedPrediction m)).
Proof.
  cbn. unfold ruleRisk. destruct (65 <=? ruleConfidence m); reflexivity.
Qed.

Lemma normalized_source (data : jsval) (m : formData) (r : PredictionResult) :
  normalizeMlResponse data m = Some r -> source r = "ml_model".
Proof.
  unfold normalizeMlResponse. cbv zeta.
  destruct (ToNumber _); [|discriminate].
  destruct (call_toUpperCase _); [|discriminate].
  destruct (call_toString _); [|discriminate].
  intros Hr. injection Hr as <-. reflexivity.
Qed.

Lemma normalized_label (data : jsval) (m : formData) (r : PredictionResult) :
  normalizeMlResponse data m = Some r ->
  (truthy (suppliedRiskLevel data) = false ->
   risk_label r = Spec.label_of_risk (risk r)) /\
  (forall s, suppliedRiskLevel data = JStr s -> s <> "" ->
   risk_label r =
   if String.eqb (toUpperCase s) "HIGH" then "High Risk" else "Low Risk").
Proof.
  unfold normalizeMlResponse, suppliedRiskLevel. cbv zeta.
  set (responseData := or (get data "data") data).
  set (level := or (get responseData "risk_level") (get data "risk_level")).
  set (prediction := if is_defined (get responseData "prediction")
                     then get responseData "prediction"
                     else get data "prediction").
  destruct (ToNumber _) as [c|]; [|discriminate].
  destruct (call_toUpperCase _) as [up|] eqn:Hup; [|discriminate].
  destruct (call_toString _) as [text|]; [|discriminate].
  intros Hr. injection Hr as <-. cbn [risk_label risk]. split.
  - intros Hfalsy. unfold or at 1 in Hup. rewrite Hfalsy in Hup.
    cbn in Hup. injection Hup as <-. unfold Spec.label_of_risk.
    destruct (strict_eq_num prediction 1); reflexivity.
  - intros s Hs Hne. rewrite Hs in Hup. unfold or in Hup. cbn in Hup.
    destruct (String.eqb_spec s ""); [contradiction|].
    cbn in Hup. injection Hup as <-. reflexivity.
Qed.

(** C4, amended.  A heuristic-sourced result, and a remote-sourced result
    whose body supplied no [risk_level], have the label derived from [risk]
    alone: High Risk when [risk] is 1 and Low Risk otherwise.  A
    remote-sourced result whose body supplied a [risk_level] text has the
    label High Risk exactly when that text, in upper case, is HIGH, whatever
    [risk] is. *)
Theorem C4_risk_label (post : formData -> axios_reply) (m : formData) :
  let r := predictCardiovascularRisk post m in
  (source r = "rule_based" /\ risk_label r = Spec.label_of_risk (risk r))
  \/ (exists data,
        post (mlRequestBody m) = Resolved data /\ source r = "ml_model" /\
        (truthy (suppliedRiskLevel data) = false ->
         risk_label r = Spec.label_of_risk (risk r)) /\
        (forall s, suppliedRiskLevel data = JStr s -> s <> "" ->
         risk_label r =
         if String.eqb (toUpperCase s) "HIGH" then "High Risk" else "Low Risk")).
Proof.
  intros r. unfold r, predictCardiovascularRisk, tryMlService.
  destruct (post (mlRequestBody m)) as [e|data];
    [left; split; [reflexivity | apply rule_based_label]|].
  destruct (hasSuccessIndicator data);
    [|left; split; [reflexivity | apply rule_based_label]].
  destruct (normalizeMlResponse data m) as [res|] eqn:Hres;
    [|left; split; [reflexivity | apply rule_based_label]].
  right. exists data. split; [reflexivity|].
  split; [eapply normalized_source, Hres|].
  eapply normalized_label, Hres.
Qed.

End RiskLabel.

(** ** [POST /api/predict] *)

Section PredictRoute.
Context {rt : Runtime}.

(** C5.  The handler renders the caller's gender 1 as Male and gender 2 as
    Female, whatever the prediction: the opposite of the encoding
    (1 = female, 2 = male) that the same file uses when it builds the remote
    body, when it scores the gender and when it counts the genders for the
    statistics. *)
Theorem C5_gender_rendered_swapped (p : PredictionResult) :
  gender low_risk_patient = 1 /\
  patient_gender (patientData low_risk_patient p) = "Male" /\
  gender high_risk_patient = 2 /\
  patient_gender (patientData high_risk_patient p) = "Female" /\
  Spec.gender_points high_risk_patient = 10 /\
  male (statistics [ {| row_risk_prediction := 1; row_gender := 2;
                        row_age := 60; row_bmi := None |} ]) = 1.
Proof. repeat split. Qed.

(** C6.  For every valid PatientMetrics, when the write to the record store
    reports an error the handler still answers 200: the body carries the
    whole prediction, the remote details if any, and [saved = false]. *)
Theorem C6_persistence_failure (env : PredictEnv) (m : formData) :
  Spec.valid m ->
  let p := predictCardiovascularRisk (ml_post env) m in
  truthy (insert_error (db_insert env (predictionData env m p))) = true ->
  exists b : PredictBody,
    predictHandler env m = Reply 200 b /\
    success b = true /\
    saved b = false /\
    prediction b =
      {| view_risk := risk p; view_confidence := confidence p;
         view_probability := probability p; view_risk_label := risk_label p;
         view_bmi := bmi p; view_source := source p |} /\
    ml_insights b = ml_details p /\
    patient_data b = patientData m p.
Proof.
  intros _ p Herror. unfold predictHandler. fold p. rewrite Herror.
  cbn [negb andb]. eexists. split; [reflexivity|]. repeat split.
Qed.

End PredictRoute.

(** C6 for a store that refuses the write while the remote model is down. *)
Lemma C6_persistence_failure_witness :
  let env := failing_store_env in
  let m := high_risk_patient in
  let p := @predictCardiovascularRisk integer_runtime (ml_post env) m in
  Spec.valid m /\
  truthy (insert_error
            (db_insert env (@predictionData integer_runtime env m p))) = true /\
  exists b : PredictBody,
    @predictHandler integer_runtime env m = Reply 200 b /\
    success b = true /\
    saved b = false /\
    prediction b =
      {| view_risk := risk p; view_confidence := confidence p;
         view_probability := probability p; view_risk_label := risk_label p;
         view_bmi := bmi p; view_source := source p |} /\
    ml_insights b = ml_details p /\
    patient_data b = patientData m p.
Proof.
  split; [exact high_risk_patient_valid|].
  split; [reflexivity|].
  apply (@C6_persistence_failure integer_runtime failing_store_env
           high_risk_patient high_risk_patient_valid).
  reflexivity.
Defined.

(** ** [GET /api/predictions] *)

Lemma insert_newer_permutation (r : StoredRecord) (l : list StoredRecord) :
  Permutation (r :: l) (Store.insert_newer r l).
Proof.
  induction l as [|x rest IH]; cbn.
  - apply Permutation_refl.
  - destruct (created_at x <=? created_at r).
    + apply Permutation_refl.
    + eapply perm_trans; [apply perm_swap|]. apply perm_skip, IH.
Qed.

Lemma insert_newer_head (r a : StoredRecord) (l : list StoredRecord) :
  newer_or_same a r -> HdRel newer_or_same a l ->
  HdRel newer_or_same a (Store.insert_newer r l).
Proof.
  intros Har Hhd. destruct l as [|x rest]; cbn.
  - constructor; exact Har.
  - destruct (created_at x <=? created_at r); constructor; [exact Har|].
    inversion Hhd; assumption.
Qed.

Lemma insert_newer_sorted (r : StoredRecord) (l : list StoredRecord) :
  Sorted newer_or_same l -> Sorted newer_or_same (Store.insert_newer r l).
Proof.
  induction l as [|x rest IH]; intros Hsorted; cbn.
  - repeat constructor.
  - destruct (Z.leb_spec (created_at x) (created_at r)) as [Hle|Hgt].
    + constructor; [exact Hsorted|]. constructor. exact Hle.
    + inversion Hsorted as [|? ? Hrest Hhd]; subst.
      constructor; [apply IH, Hrest|].
      apply insert_newer_head; [unfold newer_or_same; lia | exact Hhd].
Qed.

(** The order the listing asks for: the same records, the most recent
    first. *)
Lemma newest_first_sorted (l : list StoredRecord) :
  Sorted newer_or_same (Store.newest_first l)
  /\ Permutation l (Store.newest_first l).
Proof.
  induction l as [|r rest [IHs IHp]]; cbn.
  - split; constructor.
  - split; [apply insert_newer_sorted, IHs|].
    eapply perm_trans; [apply perm_skip, IHp|]. apply insert_newer_permutation.
Qed.

Lemma Math_ceil_div_is_ceiling (total limit : Z) :
  0 < limit -> Spec.is_ceiling total limit (Math_ceil_div total limit).
Proof.
  intros Hlimit. unfold Spec.is_ceiling, Math_ceil_div.
  pose proof (Z.div_mod (- total) limit ltac:(lia)) as Hdiv.
  pose proof (Z.mod_pos_bound (- total) limit Hlimit) as Hmod.
  split; nia.
Qed.

(** [Math.ceil(count / limit)] evaluated in binary64, against the integer
    ceiling, for every page size the route accepts and every count up to
    500. *)
Lemma Math_ceil_div_binary64 :
  forallb
    (fun limit =>
       forallb
         (fun count =>
            match ceil_of_float (PrimFloat.div (Z2F count) (Z2F limit)) with
            | Some pages => pages =? Math_ceil_div count limit
            | None => false
            end)
         (Zrange 0 500))
    (Zrange 1 100) = true.
Proof. vm_compute. reflexivity. Qed.

(** The range the handler asks for, while its positions stay below 2^53:
    [(p-1)*l] to [(p-1)*l + l - 1], a slice of length [l] at offset
    [(p-1)*l]. *)
Lemma listQuery_range (q : ListQuery) :
  1 <= page q -> 1 <= limit q -> page q * limit q < 2 ^ 53 ->
  range_from (listQuery q) = Z2F ((page q - 1) * limit q) /\
  range_to (listQuery q) = Z2F ((page q - 1) * limit q + limit q - 1).
Proof.
  intros Hpage Hlimit Hbound. unfold listQuery. cbn [range_from range_to].
  change 1%float with (Z2F 1).
  assert (Hp : page q < 2 ^ 53) by nia.
  rewrite (sub_exact (page q) 1) by lia.
  rewrite (mul_exact (page q - 1) (limit q)) by nia.
  split; [reflexivity|].
  rewrite (add_exact ((page q - 1) * limit q) (limit q)) by nia.
  apply sub_exact; nia.
Qed.

(** What a store that serves answers to a range of positions that starts
    at a record, or at the first position. *)
Lemma select_served (store : Store.t) (q : SelectQuery) (from to : Z) :
  truthy (Store.failure store) = false ->
  (order_column q, ascending q) = ("created_at", false) ->
  range_from q = Z2F from -> range_to q = Z2F to ->
  0 <= from <= to -> to < 2 ^ 53 ->
  from = 0
  \/ from < Z.of_nat (List.length
                        (filter (Store.matches (eq_filters q)) (Store.records store))) ->
  Store.select store q =
  {| selected :=
       Store.slice from to
         (Store.newest_first
            (filter (Store.matches (eq_filters q)) (Store.records store)));
     select_error := JNull;
     count := Z.of_nat (List.length
                          (filter (Store.matches (eq_filters q)) (Store.records store))) |}.
Proof.
  intros Hup Horder Hfrom Hto Hrange Hsmall Hin.
  injection Horder as Hcol Hasc.
  unfold Store.select. rewrite Hup, Hfrom, Hto, Hcol, Hasc.
  rewrite !integer_value_exact by lia.
  rewrite String.eqb_refl.
  replace (Store.within _ _ _) with true; [reflexivity|].
  symmetry. unfold Store.within.
  apply andb_true_iff. split; [apply andb_true_iff; split; apply Z.leb_le; lia|].
  apply orb_true_iff. destruct Hin as [H0|Hlt];
    [left; apply Z.eqb_eq, H0 | right; apply Z.ltb_lt, Hlt].
Qed.

(** A page of a listing within the exact range, against a store that
    serves: the answer is 200 with the slice of length [l] at offset
    [(p-1)*l] of the matching records, most recent first, their number as
    [total], and [totalPages] the least number of pages of [l] that hold
    [total]. *)
Lemma listing_page (store : Store.t) (q : ListQuery) :
  truthy (Store.failure store) = false ->
  1 <= page q -> 1 <= limit q -> page q * limit q < 2 ^ 53 ->
  let offset := (page q - 1) * limit q in
  let found :=
    filter (Store.matches (eq_filters (listQuery q))) (Store.records store) in
  page q = 1 \/ offset < Z.of_nat (List.length found) ->
  exists b : ListBody,
    listHandler (Store.select store) q = Reply 200 b /\
    data b =
      firstn (Z.to_nat (limit q))
        (skipn (Z.to_nat offset) (Store.newest_first found)) /\
    total (pagination b) = Z.of_nat (List.length found) /\
    Spec.is_ceiling (total (pagination b)) (limit q) (totalPages (pagination b)) /\
    (pagination_page (pagination b), pagination_limit (pagination b)) =
      (page q, limit q).
Proof.
  intros Hup Hpage Hlimit Hbound offset found Hin.
  destruct (listQuery_range q Hpage Hlimit Hbound) as [Hfrom Hto].
  fold offset in Hfrom, Hto.
  assert (Hserved := select_served store (listQuery q) offset (offset + limit q - 1)
                       Hup eq_refl Hfrom Hto).
  fold found in Hserved.
  unfold listHandler. rewrite Hserved; [| unfold offset; nia | unfold offset; nia |].
  - cbn [select_error truthy selected count]. eexists. split; [reflexivity|].
    cbn [data pagination total totalPages pagination_page pagination_limit].
    split.
    + unfold Store.slice.
      replace (offset + limit q - 1 - offset + 1) with (limit q) by lia.
      reflexivity.
    + split; [reflexivity|]. split; [|reflexivity].
      apply Math_ceil_div_is_ceiling. lia.
  - destruct Hin as [Hfirst|Hlt]; [left; unfold offset; nia | right; exact Hlt].
Qed.

(** Page 2 with limit 10 holds the 11th to the 20th most recent records, and
    thirty records fill three pages. *)
Example second_page_of_thirty :
  exists b : ListBody,
    listHandler (Store.select (serving thirty_records)) second_page = Reply 200 b /\
    map created_at (data b) = [20; 19; 18; 17; 16; 15; 14; 13; 12; 11] /\
    totalPages (pagination b) = 3.
Proof. eexists. split; [vm_compute; reflexivity|]. split; reflexivity. Qed.

(** C7.  The range of a page is not always [limit] positions long.  For
    page 90071992547410 and limit 100, which the schema of the query
    accepts, the slice at offset [(p-1)*l] of length [l] runs from position
    9007199254740900 to position 9007199254740999.  The source computes
    [offset + limit - 1] in binary64, where 9007199254740999 is no number
    and rounds to 9007199254741000: it asks for 101 positions, the last of
    which is also the first position of the next page. *)
Theorem C7_range_beyond_2_53 :
  1 <= page far_page /\ 1 <= limit far_page <= 100 /\
  (page far_page - 1) * limit far_page = 9007199254740900 /\
  integer_value (range_from (listQuery far_page)) = Some 9007199254740900 /\
  integer_value (range_to (listQuery far_page)) = Some 9007199254741000 /\
  9007199254741000 - 9007199254740900 + 1 = limit far_page + 1 /\
  range_from (listQuery (with_page far_page (page far_page + 1)))
  = range_to (listQuery far_page).
Proof.
  split; [cbn; lia|]. split; [cbn; lia|].
  repeat split; vm_compute; reflexivity.
Qed.

(** ** [GET /api/statistics] *)

(** C8, as stated, fails for a record whose BMI is 0: it has a BMI value,
    so the stated mean of the two values 0 and 20 is 10; the source keeps
    only the records whose BMI is truthy, and answers 20. *)
Lemma C8_counterexample :
  Spec.bmi_values rows_with_zero_bmi = [0%float; 20%float] /\
  Spec.mean (Spec.bmi_values rows_with_zero_bmi) = 10%float /\
  averageBMI (statistics rows_with_zero_bmi) = 20%float.
Proof. repeat split; vm_compute; reflexivity. Qed.

Lemma fold_left_map {A B C : Type} (f : C -> B -> C) (g : A -> B)
  (l : list A) (a : C) :
  fold_left (fun s x => f s (g x)) l a = fold_left f (map g l) a.
Proof.
  revert a. induction l as [|x rest IH]; intros a; cbn; [reflexivity|apply IH].
Qed.

Lemma count_if_occurrences {A : Type} (f : A -> Z) (v : Z) (l : list A) :
  count_if (fun item => f item =? v) l =
  Z.of_nat (count_occ Z.eq_dec (map f l) v).
Proof.
  unfold count_if. f_equal.
  induction l as [|x rest IH]; cbn; [reflexivity|].
  destruct (Z.eqb_spec (f x) v) as [Heq|Hne], (Z.eq_dec (f x) v);
    cbn; try contradiction; now rewrite IH.
Qed.

Lemma truthy_bmi_values (rows : list SummaryRow) :
  map bmi_number (filter bmi_truthy rows) = filter nonzero (Spec.bmi_values rows).
Proof.
  induction rows as [|r rest IH]; [reflexivity|].
  cbn [filter Spec.bmi_values flat_map].
  unfold bmi_truthy at 1.
  destruct (row_bmi r) as [x|] eqn:Hb.
  - cbn [app filter]. fold (nonzero x). destruct (nonzero x).
    + cbn [map]. unfold bmi_number at 1. rewrite Hb. f_equal. exact IH.
    + exact IH.
  - exact IH.
Qed.

Lemma sum_of_nonnegative (xs : list Z) :
  Forall (fun x => 0 <= x) xs -> 0 <= sum_of xs.
Proof.
  induction 1 as [|x rest Hx _ IH]; cbn; [lia|]. fold (sum_of rest). lia.
Qed.

(** Ages that are not negative and add up to less than 2^53 are added
    without rounding. *)
Lemma ages_added_exactly (rows : list SummaryRow) (acc : Z) :
  0 <= acc -> Forall (fun r => 0 <= row_age r) rows ->
  acc + sum_of (map row_age rows) < 2 ^ 53 ->
  fold_left (fun sum item => PrimFloat.add sum (Z2F (row_age item))) rows (Z2F acc)
  = Z2F (acc + sum_of (map row_age rows)).
Proof.
  intros Hacc Hall. revert acc Hacc.
  induction Hall as [|r rest Hr Hrest IH]; intros acc Hacc Hsum.
  - cbn. f_equal. lia.
  - cbn [map fold_left] in *. change (sum_of (row_age r :: map row_age rest))
      with (row_age r + sum_of (map row_age rest)) in *.
    assert (Hpos : 0 <= sum_of (map row_age rest)).
    { apply sum_of_nonnegative, Forall_map. exact Hrest. }
    rewrite add_exact by lia. rewrite IH by lia. f_equal. lia.
Qed.

Lemma averageBMI_mean (rows : list SummaryRow) :
  averageBMI (statistics rows) = Spec.mean (filter nonzero (Spec.bmi_values rows)).
Proof.
  unfold statistics. cbn [averageBMI].
  rewrite (fold_left_map PrimFloat.add bmi_number).
  unfold count_if.
  rewrite <- (length_map bmi_number (filter bmi_truthy rows)).
  rewrite truthy_bmi_values. unfold Spec.mean.
  destruct (filter nonzero (Spec.bmi_values rows)) as [|x rest];
    [reflexivity|].
  replace (0 <? Z.of_nat (List.length (x :: rest))) with true
    by (symmetry; apply Z.ltb_lt; cbn [List.length]; lia).
  reflexivity.
Qed.

Lemma averageAge_mean (rows : list SummaryRow) :
  averageAge (statistics rows) = Spec.mean (map (fun r => Z2F (row_age r)) rows).
Proof.
  unfold statistics. cbn [averageAge].
  rewrite (fold_left_map PrimFloat.add (fun r => Z2F (row_age r))).
  unfold Spec.mean. destruct rows as [|r rest]; [reflexivity|].
  cbn [map List.length]. rewrite length_map.
  replace (0 <? Z.of_nat (S (List.length rest))) with true
    by (symmetry; apply Z.ltb_lt; lia).
  reflexivity.
Qed.

Lemma averageAge_exact (rows : list SummaryRow) :
  Forall (fun r => 0 <= row_age r) rows ->
  sum_of (map row_age rows) < 2 ^ 53 ->
  averageAge (statistics rows) = mean_of_integers (map row_age rows).
Proof.
  intros Hall Hsum. unfold statistics. cbn [averageAge].
  change 0%float with (Z2F 0).
  rewrite ages_added_exactly by (try assumption; lia).
  unfold mean_of_integers. destruct rows as [|r rest]; [reflexivity|].
  cbn [map List.length]. rewrite length_map.
  replace (0 <? Z.of_nat (S (List.length rest))) with true
    by (symmetry; apply Z.ltb_lt; lia).
  reflexivity.
Qed.

(** When no stored BMI is 0, the mean is over every record that has a BMI
    value. *)
Lemma averageBMI_without_zero (rows : list SummaryRow) :
  forallb nonzero (Spec.bmi_values rows) = true ->
  averageBMI (statistics rows) = Spec.mean (Spec.bmi_values rows).
Proof.
  intros Hall. rewrite averageBMI_mean. f_equal.
  induction (Spec.bmi_values rows) as [|x rest IH]; [reflexivity|].
  cbn in Hall |- *. apply andb_true_iff in Hall. destruct Hall as [Hx Hrest].
  rewrite Hx. f_equal. apply IH, Hrest.
Qed.

(** C8, amended.  For every fetched record set: [total] is the number of
    records; [highRisk] and [lowRisk] count the records with risk 1 and 0,
    [male] and [female] those with gender 2 and 1; [averageAge] is the mean
    age over all records, 0 when there are none; [averageBMI] is the mean of
    the BMI values that are neither absent nor 0 (a record whose BMI is
    absent or 0 counts neither in the sum nor in the divisor), 0 when there
    is no such value.  A mean is the binary64 sum of the numbers, taken in
    the order of the rows, divided by their count; for ages that are not
    negative and add up to less than 2^53 it is the quotient of the exact
    sum. *)
Theorem C8_statistics (rows : list SummaryRow) :
  let s := statistics rows in
  stat_total s = Z.of_nat (List.length rows) /\
  highRisk s = Z.of_nat (count_occ Z.eq_dec (map row_risk_prediction rows) 1) /\
  lowRisk s = Z.of_nat (count_occ Z.eq_dec (map row_risk_prediction rows) 0) /\
  male s = Z.of_nat (count_occ Z.eq_dec (map row_gender rows) 2) /\
  female s = Z.of_nat (count_occ Z.eq_dec (map row_gender rows) 1) /\
  averageAge s = Spec.mean (map (fun r => Z2F (row_age r)) rows) /\
  (Forall (fun r => 0 <= row_age r) rows ->
   sum_of (map row_age rows) < 2 ^ 53 ->
   averageAge s = mean_of_integers (map row_age rows)) /\
  averageBMI s = Spec.mean (filter nonzero (Spec.bmi_values rows)).
Proof.
  intros s. split; [reflexivity|].
  do 4 (split; [apply count_if_occurrences|]).
  split; [apply averageAge_mean|].
  split; [apply averageAge_exact | apply averageBMI_mean].
Qed.

(** ** The payload validation *)

(** C9, as stated, fails for a body that violates two members: age 0 is
    below its minimum and gender 3 is not an allowed value, and the failure
    lists the age alone, whatever Joi makes of numeric strings. *)
Lemma C9_counterexample :
  exists first_only : list (string * string),
    (forall number_of_string,
       validatePayload number_of_string doubly_invalid_payload = inr first_only
       /\ all_violations number_of_string doubly_invalid_payload =
          [("age", "number.min"); ("gender", "any.only")])
    /\ first_only = [("age", "number.min")].
Proof.
  eexists. split; [|reflexivity].
  intros nos. split; vm_compute; reflexivity.
Qed.

Lemma two_power_positive (k : Z) : 0 <= k -> 0 < 2 ^ k.
Proof. intros Hk. apply Z.pow_pos_nonneg; lia. Qed.

Lemma integer_value_comparisons (x : float) (z n : Z) :
  integer_value x = Some z ->
  int_le_float n x = (n <=? z) /\ float_le_int x n = (z <=? n).
Proof.
  unfold integer_value, int_le_float, float_le_int.
  destruct (Prim2SF x) as [s|s| |s m e]; try discriminate.
  - intros Hz. injection Hz as <-. split; reflexivity.
  - cbv zeta. set (v := if s then Z.neg m else Z.pos m).
    destruct (Z.leb_spec 0 e) as [He|He].
    + intros Hz. injection Hz as <-. split; reflexivity.
    + destruct (Z.eqb_spec (v mod 2 ^ (- e)) 0) as [Hmod|]; [|discriminate].
      intros Hz. injection Hz as <-.
      pose proof (two_power_positive (- e) ltac:(lia)) as Hpow.
      pose proof (Z.div_mod v (2 ^ (- e)) ltac:(lia)) as Hdiv.
      rewrite Hmod in Hdiv.
      set (k := 2 ^ (- e)) in *. set (d := v / k) in *.
      split.
      * destruct (Z.leb_spec (n * k) v), (Z.leb_spec n d); try reflexivity; nia.
      * destruct (Z.leb_spec v (n * k)), (Z.leb_spec d n); try reflexivity; nia.
Qed.

Lemma integer_value_finite (x : float) (z : Z) :
  integer_value x = Some z -> is_finite x = true.
Proof.
  unfold integer_value, is_finite.
  destruct (Prim2SF x); try discriminate; reflexivity.
Qed.

Lemma small_integers_exact :
  forallb (fun z => match integer_value (Z2F z) with
                    | Some v => v =? z
                    | None => false
                    end) (Zrange 0 250) = true.
Proof. vm_compute. reflexivity. Qed.

Lemma integer_value_Z2F (z : Z) :
  0 <= z <= 250 -> integer_value (Z2F z) = Some z.
Proof.
  intros Hz. pose proof (forallb_Zrange _ _ _ small_integers_exact z Hz) as H.
  cbv beta in H. destruct (integer_value (Z2F z)) as [v|]; [|discriminate].
  apply Z.eqb_eq in H. now subst.
Qed.

Section PayloadValidation.
Variable number_of_string : string -> option float.

Lemma check_ranged (prefs : Joi.preferences) (lo hi : Z) (v w : jsval) :
  Joi.check_number number_of_string prefs [Joi.integer; Joi.min lo; Joi.max hi; Joi.required] v = inl w ->
  exists x z, w = JNum x /\ integer_value x = Some z /\ lo <= z <= hi.
Proof.
  unfold Joi.check_number. cbn [Joi.has_required Joi.allowed_values existsb fold_right orb].
  destruct (Joi.coerce number_of_string prefs v) as [| | |x| | |]; try discriminate.
  destruct (is_finite x); [|discriminate].
  cbn [Joi.broken_rule].
  destruct (integer_value x) as [z|] eqn:Hz; [|discriminate].
  destruct (integer_value_comparisons x z lo Hz) as [Hlo _].
  destruct (integer_value_comparisons x z hi Hz) as [_ Hhi].
  rewrite Hlo, Hhi.
  destruct (Z.leb_spec lo z); [|discriminate].
  destruct (Z.leb_spec z hi); [|discriminate].
  intros Hw. injection Hw as <-. exists x, z. repeat split; [exact Hz | lia | lia].
Qed.

Lemma check_enumerated (prefs : Joi.preferences) (vs : list Z) (v w : jsval) :
  Joi.check_number number_of_string prefs [Joi.integer; Joi.valid vs; Joi.required] v = inl w ->
  exists x z, w = JNum x /\ integer_value x = Some z /\ In z vs.
Proof.
  unfold Joi.check_number. cbn [Joi.has_required Joi.allowed_values existsb fold_right orb].
  destruct (Joi.coerce number_of_string prefs v) as [| | |x| | |]; try discriminate.
  destruct (existsb _ vs) eqn:Hex; [|discriminate].
  intros Hw. injection Hw as <-.
  apply existsb_exists in Hex. destruct Hex as (n & Hin & Hn).
  unfold Joi.is_integer in Hn.
  destruct (integer_value x) as [z|] eqn:Hz; [|discriminate].
  apply Z.eqb_eq in Hn. subst n. exists x, z. repeat split; assumption.
Qed.

Lemma check_ranged_accepts (prefs : Joi.preferences) (lo hi z : Z) :
  0 <= z <= 250 -> lo <= z <= hi ->
  Joi.check_number number_of_string prefs [Joi.integer; Joi.min lo; Joi.max hi; Joi.required] (JNum (Z2F z))
  = inl (JNum (Z2F z)).
Proof.
  intros Hsmall Hz. pose proof (integer_value_Z2F z Hsmall) as Hv.
  unfold Joi.check_number. cbn [Joi.coerce Joi.allowed_values fold_right].
  rewrite (integer_value_finite _ _ Hv). cbn [Joi.broken_rule]. rewrite Hv.
  destruct (integer_value_comparisons _ z lo Hv) as [-> _].
  destruct (integer_value_comparisons _ z hi Hv) as [_ ->].
  destruct (Z.leb_spec lo z); [|lia]. destruct (Z.leb_spec z hi); [|lia].
  reflexivity.
Qed.

Lemma check_enumerated_accepts (prefs : Joi.preferences) (vs : list Z) (z : Z) :
  0 <= z <= 250 -> In z vs ->
  Joi.check_number number_of_string prefs [Joi.integer; Joi.valid vs; Joi.required] (JNum (Z2F z))
  = inl (JNum (Z2F z)).
Proof.
  intros Hsmall Hin. pose proof (integer_value_Z2F z Hsmall) as Hv.
  unfold Joi.check_number. cbn [Joi.coerce Joi.allowed_values fold_right].
  replace (existsb (fun n => Joi.is_integer (Z2F z) n) vs) with true; [reflexivity|].
  symmetry. apply existsb_exists. exists z. split; [exact Hin|].
  unfold Joi.is_integer. rewrite Hv. apply Z.eqb_refl.
Qed.

(** With [abortEarly] on, the engine reports the first of the errors it
    would report with [abortEarly] off. *)
Lemma member_errors_first (schema : list (string * list Joi.rule)) (o : jsval) :
  Joi.member_errors number_of_string Joi.defaults schema o =
  firstn 1 (Joi.member_errors number_of_string report_all schema o).
Proof.
  induction schema as [|[k rules] rest IH]; cbn; [reflexivity|].
  change (Joi.check_number number_of_string report_all rules (get o k))
    with (Joi.check_number number_of_string Joi.defaults rules (get o k)).
  destruct (Joi.check_number number_of_string Joi.defaults rules (get o k)); [exact IH|reflexivity].
Qed.

Lemma object_errors_first (schema : list (string * list Joi.rule)) (v : jsval) :
  Joi.object_errors number_of_string Joi.defaults schema v =
  firstn 1 (Joi.object_errors number_of_string report_all schema v).
Proof.
  destruct v; try reflexivity.
  unfold Joi.object_errors. cbn [Joi.abortEarly Joi.defaults report_all].
  rewrite member_errors_first.
  change (Joi.unknown_errors report_all schema props)
    with (Joi.unknown_errors Joi.defaults schema props).
  destruct (Joi.member_errors number_of_string report_all schema (JObj props))
    as [|e rest]; reflexivity.
Qed.

Lemma member_errors_nil (prefs : Joi.preferences) (k : string)
  (rules : list Joi.rule) (rest : list (string * list Joi.rule)) (o : jsval) :
  Joi.member_errors number_of_string prefs ((k, rules) :: rest) o = [] ->
  (exists w, Joi.check_number number_of_string prefs rules (get o k) = inl w)
  /\ Joi.member_errors number_of_string prefs rest o = [].
Proof.
  cbn. destruct (Joi.check_number number_of_string prefs rules (get o k)) as [w|code]; [|discriminate].
  intros Hrest. split; [exists w; reflexivity | exact Hrest].
Qed.

Lemma accepted_payload_valid (payload : jsval) (m : formData) :
  validatePayload number_of_string payload = inl m -> Spec.valid m.
Proof.
  unfold validatePayload, validatePayloadWith.
  destruct (Joi.object_errors number_of_string Joi.defaults payloadSchema payload)
    as [|e es] eqn:Herrors; [|discriminate].
  intros Hm. injection Hm as <-.
  destruct payload as [| | | | | |props]; try discriminate.
  unfold Joi.object_errors in Herrors. cbn [Joi.abortEarly Joi.defaults] in Herrors.
  destruct (Joi.member_errors number_of_string Joi.defaults payloadSchema (JObj props))
    as [|e es] eqn:Hmembers; [clear Herrors|discriminate].
  unfold payloadSchema in Hmembers.
  repeat match type of Hmembers with
         | Joi.member_errors _ _ (_ :: _) _ = [] =>
             apply member_errors_nil in Hmembers;
             let w := fresh "w" in
             let Hw := fresh "Hw" in
             destruct Hmembers as [[w Hw] Hmembers]
         end.
  clear Hmembers.
  unfold Spec.valid, Joi.member; cbn [age gender height weight ap_hi ap_lo
    cholesterol gluc smoke alco active].
  repeat match goal with
         | H : Joi.check_number _ _ [Joi.integer; Joi.min _; Joi.max _; Joi.required] _ = inl _ |- _ =>
             let x := fresh "x" in
             let z := fresh "z" in
             let Hz := fresh "Hz" in
             let Hr := fresh "Hr" in
             cbn [Joi.rules_of payloadSchema find fst snd String.eqb Ascii.eqb Bool.eqb];
             pose proof (check_ranged _ _ _ _ _ H) as (x & z & -> & Hz & Hr);
             try rewrite H; try rewrite Hz; clear H
         | H : Joi.check_number _ _ [Joi.integer; Joi.valid _; Joi.required] _ = inl _ |- _ =>
             let x := fresh "x" in
             let z := fresh "z" in
             let Hz := fresh "Hz" in
             let Hr := fresh "Hr" in
             pose proof (check_enumerated _ _ _ _ H) as (x & z & -> & Hz & Hr);
             try rewrite H; try rewrite Hz; clear H;
             lazymatch type of Hr with
             | In _ ?vs =>
                 let lo := eval cbv in (fold_right Z.min (hd 0 vs) vs) in
                 let hi := eval cbv in (fold_right Z.max (hd 0 vs) vs) in
                 assert (lo <= z <= hi) by (cbn [In] in Hr; lia); clear Hr
             end
         end.
  repeat split; lia.
Qed.

Lemma valid_payload_accepted (m : formData) :
  Spec.valid m -> validatePayload number_of_string (payload_of m) = inl m.
Proof.
  intros (Hage & Hgender & Hheight & Hweight & Hhi & Hlo & Hchol & Hgluc
          & Hsmoke & Halco & Hactive).
  assert (Hmembers :
    Joi.member_errors number_of_string Joi.defaults payloadSchema (payload_of m) = []).
  { unfold payloadSchema, payload_of. cbn [Joi.member_errors get lookup String.eqb Ascii.eqb Bool.eqb].
    repeat first
      [ rewrite check_ranged_accepts by lia
      | rewrite check_enumerated_accepts by (cbn [In]; lia) ].
    reflexivity. }
  unfold validatePayload, validatePayloadWith, Joi.object_errors.
  unfold payload_of at 1. cbn [Joi.abortEarly Joi.defaults].
  fold (payload_of m). rewrite Hmembers.
  replace (Joi.unknown_errors Joi.defaults payloadSchema _) with (@nil (string * string))
    by reflexivity.
  cbn [firstn]. unfold Joi.member, payload_of.
  cbn [Joi.rules_of payloadSchema find fst snd get lookup String.eqb Ascii.eqb Bool.eqb].
  repeat first
    [ rewrite check_ranged_accepts by lia
    | rewrite check_enumerated_accepts by (cbn [In]; lia) ].
  repeat rewrite integer_value_Z2F by lia.
  destruct m; reflexivity.
Qed.

(** C9, amended.  For every candidate body, validation either accepts it as
    a typed PatientMetrics, and then no member is in violation and every
    field lies in its domain of section 3, or it fails with a structured
    failure that lists one violation: the first, in the order of the schema,
    of those that validation without [abortEarly] would list.  Every valid
    PatientMetrics is accepted as itself. *)
Theorem C9_validation (payload : jsval) :
  (match validatePayload number_of_string payload with
   | inl m => all_violations number_of_string payload = [] /\ Spec.valid m
   | inr failure =>
       failure = firstn 1 (all_violations number_of_string payload)
       /\ List.length failure = 1%nat
   end)
  /\ (forall m, Spec.valid m ->
      validatePayload number_of_string (payload_of m) = inl m).
Proof.
  split; [|exact valid_payload_accepted].
  pose proof (accepted_payload_valid payload) as Hsound.
  pose proof (object_errors_first payloadSchema payload) as Hfirst.
  fold (all_violations number_of_string payload) in Hfirst.
  unfold validatePayload, validatePayloadWith in *.
  destruct (Joi.object_errors number_of_string Joi.defaults payloadSchema payload)
    as [|e es].
  - split; [|apply Hsound; reflexivity].
    destruct (all_violations number_of_string payload); [reflexivity|discriminate].
  - split; [exact Hfirst|].
    destruct (all_violations number_of_string payload) as [|a rest];
      [discriminate|].
    cbn in Hfirst. now injection Hfirst as -> ->.
Qed.

End PayloadValidation.

(** * Further properties of the code *)

(** ** The start-up probe *)

Lemma probeFrom_run (health : nat -> bool) (maxRetries remaining attempt : nat) :
  (attempt + remaining = S maxRetries)%nat -> (1 <= remaining)%nat ->
  let r := Server.probeFrom health maxRetries remaining attempt in
  let n := requests (events r) in
  (1 <= n <= remaining)%nat /\
  delays (events r) = (n - 1)%nat /\
  (forall k, (attempt <= k < attempt + n - 1)%nat -> health k = false) /\
  (mlConnected r = health (attempt + n - 1)%nat) /\
  (mlConnected r = false -> n = remaining) /\
  last (events r) (Delay 0) = HealthRequest (attempt + n - 1)%nat.
Proof.
  revert attempt. induction remaining as [|left IH]; intros attempt Hsum Hpos; [lia|].
  cbn [Server.probeFrom]. destruct (health attempt) eqn:Hnow.
  - cbn. replace (attempt + 1 - 1)%nat with attempt by lia.
    repeat split; try lia; try congruence.
  - destruct left as [|left'].
    + assert (Hlast : (attempt <? maxRetries)%nat = false)
        by (apply Nat.ltb_ge; lia).
      rewrite Hlast. cbn. replace (attempt + 1 - 1)%nat with attempt by lia.
      repeat split; try lia; try congruence.
    + assert (Hmore : (attempt <? maxRetries)%nat = true)
        by (apply Nat.ltb_lt; lia).
      rewrite Hmore.
      specialize (IH (S attempt) ltac:(lia) ltac:(lia)).
      cbv zeta in IH.
      set (rest := Server.probeFrom health maxRetries (S left') (S attempt)) in *.
      destruct IH as (Hn & Hd & Hfail & Hconn & Hall & Hlast).
      cbn [events mlConnected app].
      unfold requests, delays in *. cbn [filter List.length].
      set (n := List.length (filter _ (events rest))) in *.
      replace (attempt + S n - 1)%nat with (S attempt + n - 1)%nat by lia.
      repeat split; try lia.
      * intros k Hk. destruct (Nat.eq_dec k attempt) as [->|Hne];
          [exact Hnow | apply Hfail; lia].
      * exact Hconn.
      * intros Hoff. specialize (Hall Hoff). lia.
      * destruct (events rest) as [|e es] eqn:Hes; [cbn in n; lia|].
        exact Hlast.
Qed.

Lemma probeFrom_delays (health : nat -> bool) (maxRetries remaining attempt : nat) :
  Forall (fun e => match e with Delay ms => ms = 5000 | _ => True end)
    (events (Server.probeFrom health maxRetries remaining attempt)).
Proof.
  revert attempt. induction remaining as [|left IH]; intros a;
    cbn [Server.probeFrom]; [constructor|].
  destruct (health a); cbn [events]; [repeat constructor|].
  constructor; [exact I|].
  destruct (a <? maxRetries)%nat; cbn [app];
    [constructor; [reflexivity|]|]; apply IH.
Qed.

(** X15.  A probe with [maxRetries >= 1] makes between 1 and [maxRetries]
    requests, numbered from 1; it stops at the first request that is
    answered, and reports the remote model connected exactly when one was;
    it waits 5 s after each failed request but the last allowed one, so the
    delays are one fewer than the requests, and the run ends on a request. *)
Theorem X15_probe_with_retries (health : nat -> bool) (maxRetries : nat) :
  (1 <= maxRetries)%nat ->
  let r := Server.probeWithRetries health maxRetries in
  let n := requests (events r) in
  (1 <= n <= maxRetries)%nat /\
  delays (events r) = (n - 1)%nat /\
  (forall k, (1 <= k < n)%nat -> health k = false) /\
  mlConnected r = health n /\
  (mlConnected r = false -> n = maxRetries) /\
  last (events r) (Delay 0) = HealthRequest n /\
  Forall (fun e => match e with Delay ms => ms = 5000 | _ => True end) (events r).
Proof.
  intros Hpos r n.
  pose proof (probeFrom_run health maxRetries maxRetries 1 ltac:(lia) Hpos) as H.
  cbv zeta in H. fold (Server.probeWithRetries health maxRetries) in H.
  fold r in H. fold n in H.
  replace (1 + n - 1)%nat with n in H by lia.
  destruct H as (Hn & Hd & Hfail & Hconn & Hall & Hlast).
  repeat split; try assumption; try lia.
  apply probeFrom_delays.
Qed.

(** X15 for the three attempts of the server, none of them answered. *)
Lemma X15_probe_with_retries_witness :
  let health := fun _ : nat => false in
  let maxRetries := 3%nat in
  (1 <= maxRetries)%nat /\
  let r := Server.probeWithRetries health maxRetries in
  let n := requests (events r) in
  (1 <= n <= maxRetries)%nat /\
  delays (events r) = (n - 1)%nat /\
  (forall k, (1 <= k < n)%nat -> health k = false) /\
  mlConnected r = health n /\
  (mlConnected r = false -> n = maxRetries) /\
  last (events r) (Delay 0) = HealthRequest n /\
  Forall (fun e => match e with Delay ms => ms = 5000 | _ => True end) (events r).
Proof.
  split; [lia|].
  apply (X15_probe_with_retries (fun _ => false) 3). lia.
Defined.

(** ** [GET /api/ml-health] *)

(** X14.  The health route answers 200 or 503.  It answers 503, with the
    error of the second request, exactly when [/api/health] and [/health]
    are both rejected; when [/api/health] is answered it reports that answer
    and what [/health] would say has no influence. *)
Theorem X14_ml_health (base : string) (env : MlHealthEnv) :
  let first := base ++ "/api/health" in
  let second := base ++ "/health" in
  let r := Server.mlHealthHandler base env in
  (status r = 200 \/ status r = 503) /\
  (status r = 503 <->
   exists e1 e2, ml_get env first = Rejected e1 /\ ml_get env second = Rejected e2
                 /\ exists b, r = Reply 503 b /\ health_success b = false /\
                    ml_service b =
                      Disconnected base (get e2 "message")
                        (get_opt (get e2 "response") "status")
                        (get_opt (get e2 "response") "data") (clock_iso env)) /\
  (forall data, ml_get env first = Resolved data ->
     forall env', ml_get env' first = Resolved data ->
                  clock_iso env' = clock_iso env ->
     Server.mlHealthHandler base env' = r /\
     r = Reply 200 {| health_success := true;
                      ml_service := Connected base data first (clock_iso env) |}) /\
  (forall e1 data, ml_get env first = Rejected e1 ->
     ml_get env second = Resolved data ->
     r = Reply 200 {| health_success := true;
                      ml_service := Connected base data second (clock_iso env) |}).
Proof.
  intros first second r. unfold r, Server.mlHealthHandler.
  fold first. fold second.
  destruct (ml_get env first) as [e1|d1] eqn:H1;
    [destruct (ml_get env second) as [e2|d2] eqn:H2|]; cbn [status].
  - split; [right; reflexivity|]. split.
    + split; [intros _|reflexivity].
      exists e1, e2. repeat split. eexists. repeat split.
    + split; [intros data Hd; discriminate|].
      intros e data _ Hd. discriminate.
  - split; [left; reflexivity|]. split.
    + split; [discriminate|]. intros (x & y & _ & Hy & _). discriminate.
    + split; [intros data Hd; discriminate|].
      intros e data _ Hd. injection Hd as <-. reflexivity.
  - split; [left; reflexivity|]. split.
    + split; [discriminate|]. intros (x & y & Hx & _). discriminate.
    + split; [|intros e data He; discriminate].
      intros data Hd env' Hd' Hclock. injection Hd as <-.
      rewrite Hd', Hclock. split; reflexivity.
Qed.

(** ** The rule-based score, further *)

Ltac cases_if :=
  repeat match goal with
         | |- context [if ?a <? ?b then _ else _] => destruct (Z.ltb_spec a b)
         | |- context [if ?a =? ?b then _ else _] => destruct (Z.eqb_spec a b)
         | |- context [if ?b then _ else _] => destruct b
         end.

Ltac fifth :=
  cases_if;
  match goal with
  | |- exists a, ?v = 5 * a /\ _ => exists (v / 5); cbn; lia
  end.

(** Every entry of [riskFactors] is a multiple of 5 within fixed bounds. *)
Lemma factor_fifths (m : formData) :
  (exists a, Spec.age_points m = 5 * a /\ 1 <= a <= 5) /\
  (exists a, Spec.gender_points m = 5 * a /\ 1 <= a <= 2) /\
  (exists a, bmiFactor m = 5 * a /\ 0 <= a <= 4) /\
  (exists a, Spec.systolic_points m = 5 * a /\ 1 <= a <= 5) /\
  (exists a, Spec.diastolic_points m = 5 * a /\ 1 <= a <= 4) /\
  (exists a, Spec.cholesterol_points m = 5 * a /\ 0 <= a <= 5) /\
  (exists a, Spec.glucose_points m = 5 * a /\ 0 <= a <= 4) /\
  (exists a, Spec.smoker_points m = 5 * a /\ 0 <= a <= 3) /\
  (exists a, Spec.alcohol_points m = 5 * a /\ 0 <= a <= 1) /\
  (exists a, (if active m =? 0 then 10 else 0) = 5 * a /\ 0 <= a <= 2).
Proof.
  unfold Spec.age_points, Spec.gender_points, bmiFactor, Spec.systolic_points,
    Spec.diastolic_points, Spec.cholesterol_points, Spec.glucose_points,
    Spec.smoker_points, Spec.alcohol_points.
  repeat split; fifth.
Qed.

(** X5.  Whatever the payload, the sum of the risk factors is a multiple of
    5 between 20 and 175; the confidence is therefore one of the sixteen
    values 20, 25, ..., 95, and the risk, 0 or 1, is 1 exactly when the sum
    reaches 65. *)
Theorem X5_score_in_steps_of_five (m : formData) :
  exists k : Z,
    totalRisk m = 5 * k /\ 4 <= k <= 35 /\
    ruleConfidence m = 5 * Z.min k 19 /\
    (ruleRisk m = 1 <-> 65 <= totalRisk m) /\
    (ruleRisk m = 0 <-> totalRisk m < 65).
Proof.
  destruct (factor_fifths m) as
    ((a1 & E1 & B1) & (a2 & E2 & B2) & (a3 & E3 & B3) & (a4 & E4 & B4) &
     (a5 & E5 & B5) & (a6 & E6 & B6) & (a7 & E7 & B7) & (a8 & E8 & B8) &
     (a9 & E9 & B9) & (a10 & E10 & B10)).
  exists (a1 + a2 + a3 + a4 + a5 + a6 + a7 + a8 + a9 + a10).
  assert (Htotal : totalRisk m =
                   5 * (a1 + a2 + a3 + a4 + a5 + a6 + a7 + a8 + a9 + a10)).
  { rewrite totalRisk_unfold. lia. }
  unfold ruleRisk, ruleConfidence. rewrite Htotal.
  split; [reflexivity|]. split; [lia|]. split; [lia|].
  destruct (Z.leb_spec 65
              (Z.min (Z.max (5 * (a1 + a2 + a3 + a4 + a5 + a6 + a7 + a8 + a9 + a10)) 10) 95));
    split; split; intros; lia.
Qed.

(** X6.  Between two valid payloads of the same gender, height and weight,
    the one that is no younger, has no lower pressures, cholesterol and
    glucose levels, smokes and drinks if the other does and is active only
    if the other is, has no lower sum, confidence and risk. *)
Theorem X6_score_monotone (m m' : formData) :
  Spec.valid m -> Spec.valid m' ->
  gender m = gender m' -> height m = height m' -> weight m = weight m' ->
  age m <= age m' -> ap_hi m <= ap_hi m' -> ap_lo m <= ap_lo m' ->
  cholesterol m <= cholesterol m' -> gluc m <= gluc m' ->
  smoke m <= smoke m' -> alco m <= alco m' -> active m' <= active m ->
  totalRisk m <= totalRisk m' /\
  ruleConfidence m <= ruleConfidence m' /\
  ruleRisk m <= ruleRisk m'.
Proof.
  intros (_ & _ & _ & _ & _ & _ & Hc & Hg & Hs & Ha & Hact)
         (_ & _ & _ & _ & _ & _ & Hc' & Hg' & Hs' & Ha' & Hact')
         Hgender Hheight Hweight Hage Hhi Hlo Hchol Hgluc Hsmoke Halco Hactive.
  assert (Hbmi : bmiFactor m = bmiFactor m').
  { unfold bmiFactor, calculatedBMI, heightInM. now rewrite Hheight, Hweight. }
  assert (H1 : Spec.age_points m <= Spec.age_points m')
    by (unfold Spec.age_points; cases_if; lia).
  assert (H2 : Spec.gender_points m = Spec.gender_points m')
    by (unfold Spec.gender_points; now rewrite Hgender).
  assert (H4 : Spec.systolic_points m <= Spec.systolic_points m')
    by (unfold Spec.systolic_points; cases_if; lia).
  assert (H5 : Spec.diastolic_points m <= Spec.diastolic_points m')
    by (unfold Spec.diastolic_points; cases_if; lia).
  assert (H6 : Spec.cholesterol_points m <= Spec.cholesterol_points m')
    by (unfold Spec.cholesterol_points; cases_if; lia).
  assert (H7 : Spec.glucose_points m <= Spec.glucose_points m')
    by (unfold Spec.glucose_points; cases_if; lia).
  assert (H8 : Spec.smoker_points m <= Spec.smoker_points m')
    by (unfold Spec.smoker_points; cases_if; lia).
  assert (H9 : Spec.alcohol_points m <= Spec.alcohol_points m')
    by (unfold Spec.alcohol_points; cases_if; lia).
  assert (H10 : (if active m =? 0 then 10 else 0)
                <= (if active m' =? 0 then 10 else 0))
    by (cases_if; lia).
  assert (Htotal : totalRisk m <= totalRisk m')
    by (rewrite !totalRisk_unfold; lia).
  unfold ruleRisk, ruleConfidence.
  split; [exact Htotal|]. split; [lia|].
  destruct (Z.leb_spec 65 (Z.min (Z.max (totalRisk m) 10) 95)),
           (Z.leb_spec 65 (Z.min (Z.max (totalRisk m') 10) 95)); lia.
Qed.

(** X6 for the two worked examples made comparable: the low-risk patient
    against the same patient aged 60 who smokes. *)
Lemma X6_score_monotone_witness :
  let m := low_risk_patient in
  let m' := {| age := 60; gender := 1; height := 165; weight := 55;
               ap_hi := 110; ap_lo := 70; cholesterol := 1; gluc := 1;
               smoke := 1; alco := 0; active := 1 |} in
  Spec.valid m /\ Spec.valid m' /\
  gender m = gender m' /\ height m = height m' /\ weight m = weight m' /\
  age m <= age m' /\ ap_hi m <= ap_hi m' /\ ap_lo m <= ap_lo m' /\
  cholesterol m <= cholesterol m' /\ gluc m <= gluc m' /\
  smoke m <= smoke m' /\ alco m <= alco m' /\ active m' <= active m /\
  totalRisk m <= totalRisk m' /\
  ruleConfidence m <= ruleConfidence m' /\
  ruleRisk m <= ruleRisk m'.
Proof.
  cbv zeta.
  assert (Hv : Spec.valid
                 {| age := 60; gender := 1; height := 165; weight := 55;
                    ap_hi := 110; ap_lo := 70; cholesterol := 1; gluc := 1;
                    smoke := 1; alco := 0; active := 1 |})
    by (unfold Spec.valid; cbn; lia).
  split; [exact low_risk_patient_valid|]. split; [exact Hv|].
  do 11 (split; [cbn; try reflexivity; lia|]).
  apply (X6_score_monotone low_risk_patient _ low_risk_patient_valid Hv);
    cbn; try reflexivity; lia.
Defined.

Section ScoreAsSpecified.
Context {rt : Runtime}.


End ScoreAsSpecified.


Lemma bmi_display_agrees_everywhere :
  forallb (fun h => forallb (bmi_display_agrees h) (Zrange 30 200))
    (Zrange 100 250) = true.
Proof. vm_compute. reflexivity. Qed.

Section BmiText.
Context {rt : Runtime}.

Lemma toFixed1_tenths (x : float) (m : positive) (e : Z) :
  Prim2SF x = S754_finite false m e ->
  PrimFloat.leb 1e21 (PrimFloat.abs x) = false ->
  toFixed1 x = digits (tenths x / 10) ++ "." ++ digits (tenths x mod 10).
Proof.
  intros Hx Hsmall. unfold toFixed1, tenths. rewrite Hx, Hsmall. reflexivity.
Qed.

(** X4.  For every valid PatientMetrics the BMI text of the rule-based
    result is [d.t] with one decimal, between 4.8 and 200.0, and within 0.05
    of the exact weight / (height/100)^2. *)
Theorem X4_bmi_one_decimal (m : formData) :
  Spec.valid m ->
  exists n : Z,
    bmi (ruleBasedPrediction m) = digits (n / 10) ++ "." ++ digits (n mod 10) /\
    48 <= n <= 2000 /\
    (Qabs (10 * Spec.BMI m - inject_Z n) <= 1 # 2)%Q.
Proof.
  intros (_ & _ & Hh & Hw & _).
  pose proof (forallb_Zrange _ _ _ bmi_display_agrees_everywhere _ Hh) as Hrow.
  cbv beta in Hrow.
  pose proof (forallb_Zrange _ _ _ Hrow _ Hw) as Hcell.
  unfold bmi_display_agrees in Hcell. cbv zeta in Hcell.
  change (calculatedBMI (body_of (height m) (weight m)))
    with (calculatedBMI m) in Hcell.
  change (Spec.BMI (body_of (height m) (weight m))) with (Spec.BMI m) in Hcell.
  destruct (Prim2SF (calculatedBMI m)) as [| | |s mant e] eqn:Hx;
    try discriminate.
  destruct s; [discriminate|].
  repeat (apply andb_true_iff in Hcell; destruct Hcell as [Hcell ?]).
  exists (tenths (calculatedBMI m)). split.
  - cbn [bmi ruleBasedPrediction].
    apply (toFixed1_tenths _ mant e Hx).
    now apply negb_true_iff.
  - split; [lia|]. now apply Qle_bool_iff.
Qed.

End BmiText.

(** X4 at the first worked example of the specification. *)
Lemma X4_bmi_one_decimal_witness :
  Spec.valid high_risk_patient /\
  exists n : Z,
    bmi (@ruleBasedPrediction integer_runtime high_risk_patient)
    = digits (n / 10) ++ "." ++ digits (n mod 10) /\
    48 <= n <= 2000 /\
    (Qabs (10 * Spec.BMI high_risk_patient - inject_Z n) <= 1 # 2)%Q.
Proof.
  split; [exact high_risk_patient_valid|].
  exact (@X4_bmi_one_decimal integer_runtime high_risk_patient
           high_risk_patient_valid).
Defined.

(** ** The remote path, further *)

Section RemotePath.
Context {rt : Runtime}.

Lemma normalized_details (data : jsval) (m : formData) (r : PredictionResult) :
  normalizeMlResponse data m = Some r ->
  source r = "ml_model" /\ ml_details r <> None.
Proof.
  unfold normalizeMlResponse. cbv zeta.
  destruct (ToNumber _); [|discriminate].
  destruct (call_toUpperCase _); [|discriminate].
  destruct (call_toString _); [|discriminate].
  intros Hr. injection Hr as <-. split; [reflexivity|discriminate].
Qed.

(** A result can be built from a body exactly when the members it is
    built from can be converted. *)
Lemma normalize_buildable (data : jsval) (m : formData) :
  buildable data = true <-> normalizeMlResponse data m <> None.
Proof.
  unfold normalizeMlResponse, buildable, suppliedConfidence, suppliedRiskLevel,
    suppliedBmi.
  cbv zeta.
  set (rd := or (get data "data") data).
  set (c := or (get rd "confidence") (get data "confidence")).
  set (l := or (get rd "risk_level") (get data "risk_level")).
  set (b := or (get_opt (get rd "patient_data") "bmi") (get rd "bmi")).
  assert (Hc : ToNumber (or c (JNum 0.5))
               = if truthy c then ToNumber c else Some 0.5%float)
    by (unfold or; destruct (truthy c); reflexivity).
  assert (Hl : forall d, call_toUpperCase (or l (JStr d))
                         = if truthy l then call_toUpperCase l
                           else Some (toUpperCase d))
    by (intros d; unfold or; destruct (truthy l); reflexivity).
  assert (Hb : forall d, call_toString (or b (JStr d))
                         = if truthy b then call_toString b else Some d)
    by (intros d; unfold or; destruct (truthy b); reflexivity).
  rewrite Hc, Hl, Hb. clear Hc Hl Hb.
  destruct (truthy c), (truthy l), (truthy b); cbn [negb orb andb];
    try destruct (ToNumber c); try destruct (call_toString b);
    try (destruct l; cbn [call_toUpperCase]);
    split; intros H; try discriminate; try reflexivity;
    try (exfalso; apply H; reflexivity).
Qed.

(** X1.  Exactly one of the two sources produces the result, and the result
    says which.  The remote answer is used, and then the source is
    [ml_model] and the remote details are present, exactly when the request
    is answered with a body that passes the test of line 41 and whose
    supplied confidence, risk level and BMI can be converted; in every other
    case the result is the rule-based one, with source [rule_based] and no
    remote details. *)
Theorem X1_provenance (post : formData -> axios_reply) (m : formData) :
  let r := predictCardiovascularRisk post m in
  (remoteAnswerUsed (post (mlRequestBody m)) = true /\
   source r = "ml_model" /\ ml_details r <> None)
  \/ (remoteAnswerUsed (post (mlRequestBody m)) = false /\
      r = ruleBasedPrediction m /\
      source r = "rule_based" /\ ml_details r = None).
Proof.
  intros r. unfold r, predictCardiovascularRisk, tryMlService, remoteAnswerUsed.
  destruct (post (mlRequestBody m)) as [e|d]; [right; repeat split|].
  destruct (hasSuccessIndicator d); [|right; repeat split].
  cbn [andb]. pose proof (normalize_buildable d m) as Hbuild.
  destruct (normalizeMlResponse d m) as [res|] eqn:Hres.
  - left. split; [apply Hbuild; discriminate|].
    exact (normalized_details d m res Hres).
  - right. split; [|repeat split].
    destruct (buildable d); [|reflexivity].
    exfalso. now apply Hbuild.
Qed.

Lemma or_twice (a c : jsval) : or (or a a) c = or a c.
Proof. unfold or. destruct (truthy a) eqn:Ha; rewrite Ha; reflexivity. Qed.

Lemma or_undefined (a c : jsval) : or (or a JUndefined) c = or a c.
Proof. unfold or. destruct (truthy a) eqn:Ha; [rewrite Ha|]; reflexivity. Qed.

Lemma normalize_wrapped (flag body : jsval) (m : formData) :
  truthy body = true -> truthy (get body "data") = false ->
  normalizeMlResponse (wrapped flag body) m = normalizeMlResponse body m.
Proof.
  intros Hbody Hflat. unfold normalizeMlResponse, wrapped. cbv zeta.
  cbn [get lookup String.eqb Ascii.eqb Bool.eqb].
  replace (or body (JObj [("success", flag); ("data", body)])) with body
    by (unfold or; now rewrite Hbody).
  replace (or (get body "data") body) with body
    by (unfold or; now rewrite Hflat).
  rewrite !or_twice, !or_undefined.
  replace (if is_defined (get body "prediction")
           then get body "prediction" else JUndefined)
    with (get body "prediction")
    by (now destruct (get body "prediction")).
  replace (if is_defined (get body "prediction")
           then get body "prediction" else get body "prediction")
    with (get body "prediction")
    by (now destruct (is_defined (get body "prediction"))).
  reflexivity.
Qed.

(** X2.  The two shapes of a remote answer give the same result: a body that
    shows a success indicator and has no [data] member of its own is read
    the same whether it comes as it is or nested under [data] beside a set
    [success] flag. *)
Theorem X2_nested_or_flat (flag body : jsval) (m : formData) :
  truthy flag = true -> hasSuccessIndicator body = true ->
  truthy (get body "data") = false ->
  predictCardiovascularRisk (fun _ => Resolved (wrapped flag body)) m =
  predictCardiovascularRisk (fun _ => Resolved body) m.
Proof.
  intros Hflag Hshown Hflat.
  assert (Hbody : truthy body = true).
  { unfold hasSuccessIndicator in Hshown. now destruct (truthy body). }
  unfold predictCardiovascularRisk, tryMlService.
  rewrite Hshown, (normalize_wrapped flag body m Hbody Hflat).
  unfold hasSuccessIndicator, wrapped.
  cbn [truthy get lookup String.eqb Ascii.eqb Bool.eqb andb].
  rewrite Hflag. reflexivity.
Qed.

(** X3.  When the remote body supplies no confidence, or one that is falsy
    such as 0, the result takes 0.5 in its place: the confidence is 50, the
    model confidence in the details is 0.5, and the probability, unless the
    body supplies one, is 0.5 too. *)
Theorem X3_default_confidence (data : jsval) (m : formData)
  (r : PredictionResult) :
  normalizeMlResponse data m = Some r ->
  truthy (suppliedConfidence data) = false ->
  confidence r = 50%float /\
  option_map model_confidence (ml_details r) = Some (JNum 0.5) /\
  (truthy (or (get (or (get data "data") data) "probability")
              (get data "probability")) = false ->
   probability r = JNum 0.5).
Proof.
  unfold normalizeMlResponse, suppliedConfidence. cbv zeta.
  set (responseData := or (get data "data") data).
  intros Hr Hnone.
  assert (Hconf : or (or (get responseData "confidence") (get data "confidence"))
                     (JNum 0.5) = JNum 0.5)
    by (unfold or at 1; now rewrite Hnone).
  rewrite Hconf in Hr. cbn [ToNumber] in Hr.
  destruct (call_toUpperCase _); [|discriminate].
  destruct (call_toString _); [|discriminate].
  injection Hr as <-. cbn [confidence ml_details probability option_map model_confidence].
  split; [vm_compute; reflexivity|]. split; [reflexivity|].
  intros Hprob. unfold or at 1. now rewrite Hprob.
Qed.

(** X18.  When the remote body supplies no BMI, the result carries the BMI
    text the rule-based path would: the one computed from the payload. *)
Theorem X18_bmi_fallback (data : jsval) (m : formData) (r : PredictionResult) :
  normalizeMlResponse data m = Some r ->
  truthy (suppliedBmi data) = false ->
  bmi r = toFixed1 (calculatedBMI m) /\ bmi r = bmi (ruleBasedPrediction m).
Proof.
  unfold normalizeMlResponse, suppliedBmi. cbv zeta.
  set (responseData := or (get data "data") data).
  intros Hr Hnone.
  assert (Hbmi : or (or (get_opt (get responseData "patient_data") "bmi")
                        (get responseData "bmi"))
                    (JStr (toFixed1 (calculatedBMI m)))
                 = JStr (toFixed1 (calculatedBMI m)))
    by (unfold or at 1; now rewrite Hnone).
  rewrite Hbmi in Hr. cbn [call_toString ToString] in Hr.
  destruct (ToNumber _); [|discriminate].
  destruct (call_toUpperCase _); [|discriminate].
  injection Hr as <-. split; reflexivity.
Qed.

End RemotePath.

(** X2 for the answer that predicts 1 and calls the risk level LOW. *)
Lemma X2_nested_or_flat_witness :
  let flag := JBool true in
  let body := disagreeing_reply in
  let m := low_risk_patient in
  truthy flag = true /\ hasSuccessIndicator body = true /\
  truthy (get body "data") = false /\
  @predictCardiovascularRisk integer_runtime
    (fun _ => Resolved (wrapped flag body)) m =
  @predictCardiovascularRisk integer_runtime (fun _ => Resolved body) m.
Proof.
  do 3 (split; [reflexivity|]).
  apply (@X2_nested_or_flat integer_runtime); reflexivity.
Defined.

(** X3 for a remote answer whose confidence is 0. *)
Lemma X3_default_confidence_witness :
  exists r : PredictionResult,
    @normalizeMlResponse integer_runtime zero_confidence_reply low_risk_patient
    = Some r /\
    truthy (suppliedConfidence zero_confidence_reply) = false /\
    confidence r = 50%float /\
    option_map model_confidence (ml_details r) = Some (JNum 0.5) /\
    (truthy (or (get (or (get zero_confidence_reply "data")
                         zero_confidence_reply) "probability")
                (get zero_confidence_reply "probability")) = false ->
     probability r = JNum 0.5).
Proof.
  eexists. split; [vm_compute; reflexivity|]. split; [reflexivity|].
  apply (@X3_default_confidence integer_runtime zero_confidence_reply
           low_risk_patient); [vm_compute; reflexivity | reflexivity].
Defined.

(** X18 for the same answer, which has no BMI. *)
Lemma X18_bmi_fallback_witness :
  exists r : PredictionResult,
    @normalizeMlResponse integer_runtime zero_confidence_reply low_risk_patient
    = Some r /\
    truthy (suppliedBmi zero_confidence_reply) = false /\
    bmi r = @toFixed1 integer_runtime (calculatedBMI low_risk_patient) /\
    bmi r = bmi (@ruleBasedPrediction integer_runtime low_risk_patient).
Proof.
  eexists. split; [vm_compute; reflexivity|]. split; [reflexivity|].
  apply (@X18_bmi_fallback integer_runtime zero_confidence_reply
           low_risk_patient); [vm_compute; reflexivity | reflexivity].
Defined.

(** ** [POST /api/predict], further *)

Section PredictAnswers.
Context {rt : Runtime}.

Lemma prediction_source_and_details (post : formData -> axios_reply)
  (m : formData) :
  let r := predictCardiovascularRisk post m in
  (source r = "rule_based" /\ ml_details r = None)
  \/ (source r = "ml_model" /\ ml_details r <> None).
Proof.
  intros r. unfold r, predictCardiovascularRisk, tryMlService.
  destruct (post (mlRequestBody m)) as [e|d]; [left; split; reflexivity|].
  destruct (hasSuccessIndicator d); [|left; split; reflexivity].
  destruct (normalizeMlResponse d m) as [res|] eqn:Hres;
    [|left; split; reflexivity].
  right. exact (normalized_details d m res Hres).
Qed.

(** X7.  The handler answers 200 or 500, and 500 only when the record store
    returns neither an error nor rows: never because of the remote model.
    In a 200 answer [saved] tells whether the store reported no error, the
    source is [rule_based] or [ml_model], and [ml_insights] is null exactly
    when the source is [rule_based]. *)
Theorem X7_predict_answers (env : PredictEnv) (m : formData) :
  let p := predictCardiovascularRisk (ml_post env) m in
  let written := db_insert env (predictionData env m p) in
  let answer := predictHandler env m in
  (status answer = 500 <->
   truthy (insert_error written) = false /\
   (inserted written = JNull \/ inserted written = JUndefined)) /\
  (status answer = 500 \/
   exists b, answer = Reply 200 b /\
     (saved b = true <-> truthy (insert_error written) = false) /\
     (view_source (prediction b) = "rule_based"
      \/ view_source (prediction b) = "ml_model") /\
     (ml_insights b = None <-> view_source (prediction b) = "rule_based")).
Proof.
  intros p written answer. unfold answer, predictHandler. fold p. fold written.
  pose proof (prediction_source_and_details (ml_post env) m) as Hsource.
  cbv zeta in Hsource. fold p in Hsource.
  assert (Hbody :
    (source p = "rule_based" \/ source p = "ml_model") /\
    (ml_details p = None <-> source p = "rule_based")).
  { destruct Hsource as [[Hs Hd]|[Hs Hd]]; rewrite Hs.
    - split; [left; reflexivity|]. split; [reflexivity|intros _; exact Hd].
    - split; [right; reflexivity|]. split; [contradiction|discriminate]. }
  destruct (truthy (insert_error written)) eqn:Herror; cbn [negb andb].
  - cbn [status]. split; [split; [discriminate | intros [H _]; discriminate]|].
    right. eexists. split; [reflexivity|].
    cbn [saved prediction view_source ml_insights negb].
    split; [split; discriminate|]. exact Hbody.
  - destruct (inserted written) eqn:Hrows; cbn [status].
    1, 2: split; [split; [intros _; split; [reflexivity|auto] | reflexivity]
                 | left; reflexivity].
    all: split; [split; [discriminate | intros [_ [H|H]]; discriminate]|].
    all: right; eexists; split; [reflexivity|];
      cbn [saved prediction view_source ml_insights negb];
      split; [split; reflexivity | exact Hbody].
Qed.

(** X16.  A request to [POST /api/predict] either fails validation, with at
    least one error and the same answer whatever the remote model and the
    record store would do, or is handled, and then the handler ran on a
    PatientMetrics that is valid. *)
Theorem X16_validation_is_terminal
  (number_of_string : string -> option float) (env : PredictEnv)
  (payload : jsval) :
  match Hapi.predictRoute number_of_string env payload with
  | BadRequest details =>
      details <> [] /\
      forall env', Hapi.predictRoute number_of_string env' payload
                   = BadRequest details
  | Handled answer =>
      exists m, validatePayload number_of_string payload = inl m /\
                Spec.valid m /\ answer = predictHandler env m
  end.
Proof.
  unfold Hapi.predictRoute.
  destruct (validatePayload number_of_string payload) as [m|details] eqn:Hv.
  - exists m. split; [reflexivity|]. split; [|reflexivity].
    exact (accepted_payload_valid number_of_string payload m Hv).
  - split; [|intros env'; reflexivity].
    unfold validatePayload, validatePayloadWith in Hv.
    destruct (Joi.object_errors _ _ _ _); [discriminate|].
    injection Hv as <-. discriminate.
Qed.

Lemma prefix_after (s p t : string) :
  prefix p t = true -> prefix (s ++ p) (s ++ t) = true.
Proof.
  intros Hp. induction s as [|c s IH]; [exact Hp|]. cbn.
  destruct (Ascii.ascii_dec c c) as [_|Hne]; [exact IH|contradiction].
Qed.

(** X19.  When the handler answers 200, the row it handed to the record
    store agrees with the answer: the payload as received, the same risk,
    confidence, probability, source and remote details, and the number read
    from the same BMI text; the row's user agent is null when the request
    had none, and its session token starts with [session_] followed by the
    clock. *)
Theorem X19_stored_as_answered (env : PredictEnv) (m : formData)
  (b : PredictBody) :
  predictHandler env m = Reply 200 b ->
  let row := predictionData env m (predictCardiovascularRisk (ml_post env) m) in
  inputData row = m /\
  risk_prediction row = view_risk (prediction b) /\
  confidence_score row = view_confidence (prediction b) /\
  stored_probability row = view_probability (prediction b) /\
  prediction_source row = view_source (prediction b) /\
  stored_ml_details row = ml_insights b /\
  stored_bmi row = parseFloat (view_bmi (prediction b)) /\
  (truthy (user_agent_header env) = false -> user_agent row = JNull) /\
  (truthy (user_agent_header env) = true ->
   user_agent row = user_agent_header env) /\
  prefix ("session_" ++ digits (now env) ++ "_") (session_id row) = true.
Proof.
  unfold predictHandler.
  destruct (negb _ && _); [discriminate|].
  intros Hb. injection Hb as <-. cbv zeta.
  cbn [predictionData inputData risk_prediction confidence_score
       stored_probability prediction_source stored_ml_details stored_bmi
       user_agent session_id prediction view_risk view_confidence
       view_probability view_source view_bmi ml_insights].
  do 7 (split; [reflexivity|]).
  split; [intros H; unfold or; now rewrite H|].
  split; [intros H; unfold or; now rewrite H|].
  apply prefix_after, prefix_after.
  generalize (substring 2 13 (random36 env)). intros t.
  change "_" with ("_" ++ "") at 1. apply prefix_after. now destruct t.
Qed.

End PredictAnswers.

(** X19 for a request without user agent, answered from the rule-based
    path, that the store refuses to write. *)
Lemma X19_stored_as_answered_witness :
  exists b : PredictBody,
    @predictHandler integer_runtime failing_store_env high_risk_patient
    = Reply 200 b /\
    let env := failing_store_env in
    let m := high_risk_patient in
    let row := @predictionData integer_runtime env m
                 (@predictCardiovascularRisk integer_runtime (ml_post env) m) in
    inputData row = m /\
    risk_prediction row = view_risk (prediction b) /\
    confidence_score row = view_confidence (prediction b) /\
    stored_probability row = view_probability (prediction b) /\
    prediction_source row = view_source (prediction b) /\
    stored_ml_details row = ml_insights b /\
    stored_bmi row = @parseFloat integer_runtime (view_bmi (prediction b)) /\
    (truthy (user_agent_header env) = false -> user_agent row = JNull) /\
    (truthy (user_agent_header env) = true ->
     user_agent row = user_agent_header env) /\
    prefix ("session_" ++ digits (now env) ++ "_") (session_id row) = true.
Proof.
  eexists. split; [reflexivity|].
  apply (@X19_stored_as_answered integer_runtime failing_store_env
           high_risk_patient).
  reflexivity.
Defined.

(** ** The payload schema, further *)

Section RequiredMembers.
Variable number_of_string : string -> option float.

Lemma missing_member_reported (prefs : Joi.preferences)
  (schema : list (string * list Joi.rule)) (o : jsval) (k : string)
  (rules : list Joi.rule) :
  Joi.abortEarly prefs = false ->
  In (k, rules) schema -> Joi.has_required rules = true ->
  get o k = JUndefined ->
  In (k, "any.required") (Joi.member_errors number_of_string prefs schema o).
Proof.
  intros Hall Hin Hreq Hmissing.
  induction schema as [|[k' rules'] rest IH]; [contradiction|].
  cbn [Joi.member_errors]. rewrite Hall.
  destruct Hin as [Heq|Hin].
  - injection Heq as -> ->. rewrite Hmissing.
    unfold Joi.check_number. cbn [Joi.coerce]. rewrite Hreq. left. reflexivity.
  - destruct (Joi.check_number number_of_string prefs rules' (get o k'));
      [|right]; apply IH, Hin.
Qed.

(** X17.  Every member of the schema is required: a body that lacks any of
    the eleven members is refused, and the violations of the body include
    that the member is required. *)
Theorem X17_members_required (props : list (string * jsval)) (k : string) :
  In k (map fst payloadSchema) -> lookup k props = None ->
  In (k, "any.required") (all_violations number_of_string (JObj props)) /\
  exists details, details <> [] /\
    validatePayload number_of_string (JObj props) = inr details.
Proof.
  intros Hk Hmissing.
  assert (Hrules : exists rules, In (k, rules) payloadSchema
                                 /\ Joi.has_required rules = true).
  { apply in_map_iff in Hk. destruct Hk as ([k' rules] & Hfst & Hin).
    cbn in Hfst. subst k'. exists rules. split; [exact Hin|].
    unfold payloadSchema in Hin. cbn [In] in Hin.
    repeat (destruct Hin as [Hin|Hin];
            [injection Hin as _ <-; reflexivity|]).
    contradiction. }
  destruct Hrules as (rules & Hin & Hreq).
  assert (Hreported : In (k, "any.required")
                        (all_violations number_of_string (JObj props))).
  { unfold all_violations, Joi.object_errors. cbn [Joi.abortEarly report_all].
    apply in_or_app. left.
    apply (missing_member_reported report_all payloadSchema _ k rules);
      [reflexivity | exact Hin | exact Hreq |].
    cbn [get]. now rewrite Hmissing. }
  split; [exact Hreported|].
  pose proof (object_errors_first number_of_string payloadSchema (JObj props))
    as Hfirst.
  fold (all_violations number_of_string (JObj props)) in Hfirst.
  unfold validatePayload, validatePayloadWith.
  destruct (all_violations number_of_string (JObj props)) as [|e es];
    [contradiction|].
  rewrite Hfirst. cbn [firstn]. eexists. split; [|reflexivity]. discriminate.
Qed.

End RequiredMembers.

(** X17 for the empty body, which lacks [age]. *)
Lemma X17_members_required_witness :
  let nothing := fun _ : string => @None float in
  In "age" (map fst payloadSchema) /\ lookup "age" [] = None /\
  In ("age", "any.required") (all_violations nothing (JObj [])) /\
  exists details, details <> [] /\
    validatePayload nothing (JObj []) = inr details.
Proof.
  split; [left; reflexivity|]. split; [reflexivity|].
  apply (X17_members_required (fun _ => None) [] "age");
    [left; reflexivity | reflexivity].
Defined.

(** ** [GET /api/predictions], further *)



Lemma page_data_slice (store : Store.t) (q : ListQuery) (p : Z) :
  truthy (Store.failure store) = false ->
  1 <= p -> 1 <= limit q -> p * limit q < 2 ^ 53 ->
  p = 1
  \/ (p - 1) * limit q
     < Z.of_nat (List.length
                   (filter (Store.matches (eq_filters (listQuery q)))
                      (Store.records store))) ->
  page_data store (with_page q p) =
  firstn (Z.to_nat (limit q))
    (skipn (Z.to_nat ((p - 1) * limit q))
       (Store.newest_first
          (filter (Store.matches (eq_filters (listQuery q)))
             (Store.records store)))).
Proof.
  intros Hup Hp Hlimit Hbound Hin.
  destruct (listing_page store (with_page q p) Hup Hp Hlimit Hbound Hin)
    as (b & Hb & Hdata & _).
  unfold page_data. rewrite Hb. exact Hdata.
Qed.

Lemma chunks_concat {A : Type} (size : nat) (n : nat) (xs : list A) :
  (0 < size)%nat -> (List.length xs <= n * size)%nat ->
  List.concat (map (fun k => firstn size (skipn (k * size) xs)) (seq 0 n)) = xs.
Proof.
  intros Hsize. revert xs. induction n as [|n IH]; intros xs Hlen.
  - destruct xs; [reflexivity|cbn in Hlen; lia].
  - cbn [seq map List.concat]. rewrite <- seq_shift, map_map.
    cbn [Nat.mul skipn].
    transitivity (firstn size xs ++ skipn size xs)%list;
      [|apply firstn_skipn].
    f_equal.
    transitivity
      (List.concat
         (map (fun k => firstn size (skipn (k * size) (skipn size xs)))
            (seq 0 n)));
      [|apply IH; rewrite length_skipn; lia].
    f_equal. apply map_ext. intros k.
    rewrite skipn_skipn. f_equal. f_equal. lia.
Qed.

(** X9.  Against a store that serves, and holds fewer than 2^53 records, the
    pages 1 to [totalPages] of a listing, one after the other, are the
    matching records, most recent first: every matching record is on exactly
    one page. *)
Theorem X9_pages_cover (store : Store.t) (q : ListQuery) :
  truthy (Store.failure store) = false ->
  1 <= limit q ->
  Z.of_nat (List.length (Store.records store)) + limit q <= 2 ^ 53 ->
  let found :=
    filter (Store.matches (eq_filters (listQuery q))) (Store.records store) in
  let pages := Math_ceil_div (Z.of_nat (List.length found)) (limit q) in
  List.concat (map (fun p => page_data store (with_page q p)) (Zrange 1 pages))
  = Store.newest_first found
  /\ Permutation found
       (List.concat (map (fun p => page_data store (with_page q p)) (Zrange 1 pages))).
Proof.
  intros Hup Hlimit Hsize found pages.
  assert (Hfound : (List.length found <= List.length (Store.records store))%nat)
    by apply filter_length_le.
  assert (Hall : List.concat (map (fun p => page_data store (with_page q p))
                           (Zrange 1 pages)) = Store.newest_first found).
  { destruct (Math_ceil_div_is_ceiling (Z.of_nat (List.length found)) (limit q)
                ltac:(lia)) as [Hup' Hlow]. fold pages in Hup', Hlow.
    assert (Hpages : 0 <= pages) by nia.
    unfold Zrange. rewrite map_map.
    replace (Z.to_nat (pages - 1 + 1)) with (Z.to_nat pages) by lia.
    transitivity
      (List.concat
         (map (fun k => firstn (Z.to_nat (limit q))
                          (skipn (k * Z.to_nat (limit q))
                             (Store.newest_first found)))
            (seq 0 (Z.to_nat pages)))).
    - f_equal. apply map_ext_in. intros k Hk. apply in_seq in Hk.
      rewrite page_data_slice; [|exact Hup|lia|exact Hlimit|nia|].
      + fold found. f_equal. f_equal. nia.
      + right. fold found. nia.
    - apply chunks_concat; [lia|].
      destruct (newest_first_sorted found) as [_ Hperm].
      rewrite <- (Permutation_length Hperm). nia. }
  split; [exact Hall|]. rewrite Hall. apply newest_first_sorted.
Qed.

(** X9 for thirty records in pages of ten. *)
Lemma X9_pages_cover_witness :
  let q := second_page in
  let store := serving thirty_records in
  truthy (Store.failure store) = false /\
  1 <= limit q /\
  Z.of_nat (List.length (Store.records store)) + limit q <= 2 ^ 53 /\
  let found :=
    filter (Store.matches (eq_filters (listQuery q))) (Store.records store) in
  let pages := Math_ceil_div (Z.of_nat (List.length found)) (limit q) in
  List.concat (map (fun p => page_data store (with_page q p)) (Zrange 1 pages))
  = Store.newest_first found
  /\ Permutation found
       (List.concat (map (fun p => page_data store (with_page q p)) (Zrange 1 pages))).
Proof.
  assert (Hsize : Z.of_nat (List.length (Store.records (serving thirty_records)))
                  + limit second_page <= 2 ^ 53)
    by (apply Z.leb_le; vm_compute; reflexivity).
  split; [reflexivity|]. split; [cbn; lia|]. split; [exact Hsize|].
  apply (X9_pages_cover (serving thirty_records) second_page);
    [reflexivity | cbn; lia | exact Hsize].
Defined.

Lemma in_slice {A : Type} (size start : nat) (xs : list A) (x : A) :
  In x (firstn size (skipn start xs)) -> In x xs.
Proof.
  intros Hin. rewrite <- (firstn_skipn start xs). apply in_or_app. right.
  rewrite <- (firstn_skipn size (skipn start xs)). apply in_or_app.
  left. exact Hin.
Qed.

(** X10.  Against a store that serves, a page within the exact range that
    starts at a matching record holds at least one and at most [limit]
    records, all of them stored records that pass the filters of the
    query. *)
Theorem X10_page_contents (store : Store.t) (q : ListQuery) :
  truthy (Store.failure store) = false ->
  1 <= page q -> 1 <= limit q -> page q * limit q < 2 ^ 53 ->
  let found :=
    filter (Store.matches (eq_filters (listQuery q))) (Store.records store) in
  (page q - 1) * limit q < Z.of_nat (List.length found) ->
  (1 <= List.length (page_data store q) <= Z.to_nat (limit q))%nat /\
  (forall r, In r (page_data store q) ->
     In r (Store.records store) /\
     (forall v, riskLevel q = Some v -> record_risk r = v) /\
     (forall g, gender_filter q = Some g -> record_gender r = g)).
Proof.
  intros Hup Hpage Hlimit Hbound found Hin.
  assert (Hq : with_page q (page q) = q) by (destruct q; reflexivity).
  pose proof (page_data_slice store q (page q) Hup Hpage Hlimit Hbound
                (or_intror Hin)) as Hslice.
  rewrite Hq in Hslice. fold found in Hslice.
  destruct (newest_first_sorted found) as [_ Hperm].
  pose proof (Permutation_length Hperm) as Hlen.
  split.
  - assert (Hoffset : 0 <= (page q - 1) * limit q) by nia.
    rewrite Hslice, length_firstn, length_skipn. lia.
  - intros r Hr. rewrite Hslice in Hr.
    apply in_slice in Hr.
    apply (Permutation_in _ (Permutation_sym Hperm)) in Hr.
    apply filter_In in Hr. destruct Hr as [Hstored Hmatch].
    split; [exact Hstored|].
    unfold listQuery in Hmatch. cbn [eq_filters] in Hmatch.
    unfold Store.matches in Hmatch. rewrite forallb_app in Hmatch.
    apply andb_true_iff in Hmatch. destruct Hmatch as [Hrisk Hgender].
    split.
    + intros v Hv. rewrite Hv in Hrisk. cbn in Hrisk.
      rewrite andb_true_r in Hrisk. now apply Z.eqb_eq.
    + intros g Hg. rewrite Hg in Hgender. cbn in Hgender.
      rewrite andb_true_r in Hgender. now apply Z.eqb_eq.
Qed.

(** X10 for the third page of thirty records in pages of ten. *)
Lemma X10_page_contents_witness :
  let q := with_page second_page 3 in
  let store := serving thirty_records in
  truthy (Store.failure store) = false /\
  1 <= page q /\ 1 <= limit q /\ page q * limit q < 2 ^ 53 /\
  let found :=
    filter (Store.matches (eq_filters (listQuery q))) (Store.records store) in
  (page q - 1) * limit q < Z.of_nat (List.length found) /\
  (1 <= List.length (page_data store q) <= Z.to_nat (limit q))%nat /\
  (forall r, In r (page_data store q) ->
     In r (Store.records store) /\
     (forall v, riskLevel q = Some v -> record_risk r = v) /\
     (forall g, gender_filter q = Some g -> record_gender r = g)).
Proof.
  assert (Hin : (page (with_page second_page 3) - 1) * limit (with_page second_page 3)
                < Z.of_nat (List.length
                              (filter (Store.matches
                                         (eq_filters (listQuery (with_page second_page 3))))
                                 (Store.records (serving thirty_records)))))
    by (apply Z.ltb_lt; vm_compute; reflexivity).
  split; [reflexivity|]. split; [cbn; lia|]. split; [cbn; lia|].
  split; [cbn; lia|]. split; [exact Hin|].
  apply (X10_page_contents (serving thirty_records) (with_page second_page 3));
    [reflexivity | cbn; lia | cbn; lia | cbn; lia | exact Hin].
Defined.



(** ** [GET /api/statistics], further *)

Lemma count_if_disjoint {A : Type} (p q : A -> bool) (l : list A) :
  (forall x, p x = true -> q x = false) ->
  0 <= count_if p l /\ 0 <= count_if q l /\
  count_if p l + count_if q l <= Z.of_nat (List.length l) /\
  (count_if p l + count_if q l = Z.of_nat (List.length l)
   <-> Forall (fun x => p x = true \/ q x = true) l).
Proof.
  intros Hdisjoint. unfold count_if.
  induction l as [|x rest (Hp & Hq & Hle & Hiff)].
  - cbn. repeat split; try lia. constructor.
  - cbn [filter List.length].
    destruct (p x) eqn:Hpx; [rewrite (Hdisjoint x Hpx)|destruct (q x) eqn:Hqx];
      cbn [List.length]; repeat split; try lia.
    + intros Hsum. constructor; [auto|]. apply Hiff. lia.
    + intros Hall. inversion Hall; subst. apply Hiff in H2. lia.
    + intros Hsum. constructor; [auto|]. apply Hiff. lia.
    + intros Hall. inversion Hall; subst. apply Hiff in H2. lia.
    + intros Hall. inversion Hall as [|? ? [H|H] ?]; congruence.
Qed.

(** X11.  In the statistics of any record set the counts are not negative,
    the high-risk and low-risk counts together do not exceed the total, and
    they add up to it exactly when every record has risk 0 or 1; the same
    holds of the male and female counts and the genders 1 and 2.  Without
    records everything is 0. *)
Theorem X11_counts_within_total (rows : list SummaryRow) :
  let s := statistics rows in
  0 <= highRisk s /\ 0 <= lowRisk s /\ 0 <= male s /\ 0 <= female s /\
  highRisk s + lowRisk s <= stat_total s /\
  male s + female s <= stat_total s /\
  (highRisk s + lowRisk s = stat_total s <->
   Forall (fun r => row_risk_prediction r = 1 \/ row_risk_prediction r = 0) rows) /\
  (male s + female s = stat_total s <->
   Forall (fun r => row_gender r = 2 \/ row_gender r = 1) rows) /\
  (rows = [] ->
   stat_total s = 0 /\ averageAge s = 0%float /\ averageBMI s = 0%float).
Proof.
  intros s. unfold s, statistics.
  cbn [highRisk lowRisk male female stat_total averageAge averageBMI].
  destruct (count_if_disjoint (fun item => row_risk_prediction item =? 1)
              (fun item => row_risk_prediction item =? 0) rows)
    as (H1 & H2 & H3 & H4).
  { intros x Hx. apply Z.eqb_eq in Hx. apply Z.eqb_neq. lia. }
  destruct (count_if_disjoint (fun item => row_gender item =? 2)
              (fun item => row_gender item =? 1) rows)
    as (G1 & G2 & G3 & G4).
  { intros x Hx. apply Z.eqb_eq in Hx. apply Z.eqb_neq. lia. }
  repeat split; try assumption.
  - intros Hsum. apply H4 in Hsum. revert Hsum. apply Forall_impl.
    intros r [H|H]; apply Z.eqb_eq in H; auto.
  - intros Hall. apply H4. revert Hall. apply Forall_impl.
    intros r [H|H]; apply Z.eqb_eq in H; auto.
  - intros Hsum. apply G4 in Hsum. revert Hsum. apply Forall_impl.
    intros r [H|H]; apply Z.eqb_eq in H; auto.
  - intros Hall. apply G4. revert Hall. apply Forall_impl.
    intros r [H|H]; apply Z.eqb_eq in H; auto.
  - match goal with Hrows : _ = [] |- _ => rewrite Hrows end. reflexivity.
  - match goal with Hrows : _ = [] |- _ => rewrite Hrows end. reflexivity.
  - match goal with Hrows : _ = [] |- _ => rewrite Hrows end. reflexivity.
Qed.

Lemma count_if_permutation {A : Type} (p : A -> bool) (l l' : list A) :
  Permutation l l' -> count_if p l = count_if p l'.
Proof.
  unfold count_if. intros Hperm. f_equal.
  induction Hperm as [|x l l' _ IH|x y l|l l' l'' _ IH1 _ IH2].
  - reflexivity.
  - cbn. destruct (p x); cbn; now rewrite IH.
  - cbn. destruct (p x), (p y); reflexivity.
  - now rewrite IH1.
Qed.

Lemma sum_permutation (l l' : list Z) :
  Permutation l l' -> fold_right Z.add 0 l = fold_right Z.add 0 l'.
Proof.
  intros Hperm.
  induction Hperm as [|x l l' _ IH|x y l|l l' l'' _ IH1 _ IH2]; cbn; lia.
Qed.

Lemma mean_of_integers_permutation (xs ys : list Z) :
  Permutation xs ys -> mean_of_integers xs = mean_of_integers ys.
Proof.
  intros Hperm. unfold mean_of_integers.
  pose proof (Permutation_length Hperm) as Hlen.
  pose proof (sum_permutation xs ys Hperm) as Hsum. fold (sum_of xs) (sum_of ys) in Hsum.
  destruct xs as [|x xs'], ys as [|y ys']; try discriminate; [reflexivity|].
  now rewrite Hsum, Hlen.
Qed.

(** X12.  The counts do not depend on the order in which the record store
    returns the rows; nor does the average age, when the ages are not
    negative and add up to less than 2^53, so that their binary64 sum is
    exact. *)
Theorem X12_order_independent (rows rows' : list SummaryRow) :
  Permutation rows rows' ->
  let s := statistics rows in
  let s' := statistics rows' in
  stat_total s = stat_total s' /\ highRisk s = highRisk s' /\
  lowRisk s = lowRisk s' /\ male s = male s' /\ female s = female s' /\
  (Forall (fun r => 0 <= row_age r) rows ->
   sum_of (map row_age rows) < 2 ^ 53 ->
   averageAge s = averageAge s').
Proof.
  intros Hperm s s'.
  assert (Hlen : List.length rows = List.length rows')
    by exact (Permutation_length Hperm).
  split; [unfold s, s', statistics; cbn [stat_total]; now rewrite Hlen|].
  do 4 (split; [apply count_if_permutation, Hperm|]).
  intros Hages Hsum.
  pose proof (Permutation_map row_age Hperm) as Hmap.
  unfold s, s'. rewrite !averageAge_exact.
  - apply mean_of_integers_permutation, Hmap.
  - eapply Permutation_Forall; [exact Hperm|exact Hages].
  - unfold sum_of in *. now rewrite <- (sum_permutation _ _ Hmap).
  - exact Hages.
  - exact Hsum.
Qed.

(** X12 for two rows and the same rows in the other order. *)
Lemma X12_order_independent_witness :
  let rows := rows_with_zero_bmi in
  let rows' := rev rows_with_zero_bmi in
  Permutation rows rows' /\
  let s := statistics rows in
  let s' := statistics rows' in
  stat_total s = stat_total s' /\ highRisk s = highRisk s' /\
  lowRisk s = lowRisk s' /\ male s = male s' /\ female s = female s' /\
  (Forall (fun r => 0 <= row_age r) rows ->
   sum_of (map row_age rows) < 2 ^ 53 ->
   averageAge s = averageAge s').
Proof.
  split; [apply Permutation_rev|].
  apply (X12_order_independent rows_with_zero_bmi (rev rows_with_zero_bmi)).
  apply Permutation_rev.
Defined.

(** The order matters beyond that: 2^53 + 1 is no binary64 number, and the
    ages 2^53, 1, 1 add up to 2^53 in this order and to 2^53 + 2 in the
    opposite one. *)
Example sum_of_ages_depends_on_order :
  let row (a : Z) := {| row_risk_prediction := 0; row_gender := 1;
                        row_age := a; row_bmi := None |} in
  averageAge (statistics [row (2 ^ 53); row 1; row 1])
  <> averageAge (statistics [row 1; row 1; row (2 ^ 53)]).
Proof.
  cbv zeta. intros Heq.
  apply (f_equal Prim2SF) in Heq. vm_compute in Heq. discriminate Heq.
Qed.

(** X13.  A record whose BMI is absent (or 0) changes nothing in the average
    BMI, wherever it stands among the rows, while it counts in the total. *)
Theorem X13_missing_bmi_ignored (before after : list SummaryRow)
  (r : SummaryRow) :
  bmi_truthy r = false ->
  averageBMI (statistics (before ++ r :: after))
  = averageBMI (statistics (before ++ after))
  /\ stat_total (statistics (before ++ r :: after))
     = stat_total (statistics (before ++ after)) + 1.
Proof.
  intros Hr. unfold statistics. cbn [averageBMI stat_total]. unfold count_if.
  rewrite !filter_app. cbn [filter]. rewrite Hr. rewrite <- !filter_app.
  split; [reflexivity|]. rewrite !length_app. cbn [List.length]. lia.
Qed.

(** X13 for a record without BMI between two that have one. *)
Lemma X13_missing_bmi_ignored_witness :
  let r := {| row_risk_prediction := 1; row_gender := 2; row_age := 60;
              row_bmi := None |} in
  let before := firstn 1 rows_with_gap in
  let after := skipn 2 rows_with_gap in
  bmi_truthy r = false /\
  averageBMI (statistics (before ++ r :: after))
  = averageBMI (statistics (before ++ after))
  /\ stat_total (statistics (before ++ r :: after))
     = stat_total (statistics (before ++ after)) + 1.
Proof.
  split; [reflexivity|].
  apply X13_missing_bmi_ignored. reflexivity.
Defined.
